(** * python_statement: feeds, scrapers and the result filter

    A shallow embedding of [python_statement/statement.py]: the helpers of
    [Utils], the feed parser [Feed] and the two scrapers [Scraper.crapo] and
    [Scraper.meeks], together with the parts of [urllib.parse] and of the
    BeautifulSoup tree interface that decide what they return.

    Python strings are modelled by [string]; every character test is the
    ASCII one.  An exception is a value of [Py.exn] carried by [Py.result]. *)

From Stdlib Require Import Ascii String ZArith List Bool Lia DecimalString.
From stdpp Require Import base option list gmap strings.

Local Open Scope Z_scope.
Local Open Scope stdpp_scope.

(** ** Exceptions and results *)
Module Py.

(** The exception classes that the modelled code raises or names in an
    [except] clause. *)
Inductive exn : Set :=
| ValueError
| TypeError
| IndexError
| AttributeError
| KeyError
| OverflowError.

#[export] Instance exn_eq_dec : EqDecision exn.
Proof. solve_decision. Defined.

Inductive result (A : Type) : Type :=
| Ok (a : A)
| Raise (e : exn).
Arguments Ok {A} a.
Arguments Raise {A} e.

#[export] Instance result_ret : MRet result := fun A a => Ok a.
#[export] Instance result_bind : MBind result := fun A B f r =>
  match r with
  | Ok a => f a
  | Raise e => Raise e
  end.
#[export] Instance result_fmap : FMap result := fun A B f r =>
  match r with
  | Ok a => Ok (f a)
  | Raise e => Raise e
  end.

(** [try: body except (catch): handler] *)
Definition try_except {A} (body : result A) (catch : list exn)
    (handler : result A) : result A :=
  match body with
  | Ok a => Ok a
  | Raise e => if bool_decide (e ∈ catch) then handler else Raise e
  end.

(** A calendar date, the value of [datetime.date]. *)
Record date : Set := Date { year : Z; month : Z; day : Z }.

#[export] Instance date_eq_dec : EqDecision date.
Proof. solve_decision. Defined.

(** [str(n)] for an [int]. *)
Definition str_of_int (n : Z) : string :=
  NilZero.string_of_int (Z.to_int n).

End Py.
Export Py.

(** ** The [str] methods the code calls *)
Module PyStr.

Definition len (s : string) : nat := String.length s.

(** [s.startswith(p)] *)
Definition startswith (s p : string) : bool := String.prefix p s.

(** [sub in s] *)
Fixpoint contains (sub s : string) : bool :=
  String.prefix sub s ||
  match s with
  | EmptyString => false
  | String _ s' => contains sub s'
  end.

(** [c in s] for a single character. *)
Fixpoint has_char (c : ascii) (s : string) : bool :=
  match s with
  | EmptyString => false
  | String a s' => bool_decide (a = c) || has_char c s'
  end.

(** [s[n:]] and [s[:n]] for [n >= 0]. *)
Fixpoint drop (n : nat) (s : string) : string :=
  match n, s with
  | O, _ => s
  | S _, EmptyString => EmptyString
  | S n', String _ s' => drop n' s'
  end.

Fixpoint take (n : nat) (s : string) : string :=
  match n, s with
  | O, _ => EmptyString
  | S _, EmptyString => EmptyString
  | S n', String a s' => String a (take n' s')
  end.

(** [s.find(c)]: the index of the first [c], [None] for [-1]. *)
Fixpoint find (c : ascii) (s : string) : option nat :=
  match s with
  | EmptyString => None
  | String a s' => if bool_decide (a = c) then Some O else S <$> find c s'
  end.

(** [s.rfind(c)] *)
Fixpoint rfind (c : ascii) (s : string) : option nat :=
  match s with
  | EmptyString => None
  | String a s' =>
      match rfind c s' with
      | Some i => Some (S i)
      | None => if bool_decide (a = c) then Some O else None
      end
  end.

(** [s.partition(c)] as [(before, found, after)]. *)
Definition partition (c : ascii) (s : string) : string * bool * string :=
  match find c s with
  | Some i => (take i s, true, drop (S i) s)
  | None => (s, false, EmptyString)
  end.

(** [s.rpartition(c)] as [(before, found, after)]. *)
Definition rpartition (c : ascii) (s : string) : string * bool * string :=
  match rfind c s with
  | Some i => (take i s, true, drop (S i) s)
  | None => (EmptyString, false, s)
  end.

(** [s.split(sep)] for a non-empty separator.  [skip] counts the characters
    of a separator occurrence still to pass over, [cur] is the piece being
    read, reversed. *)
Fixpoint split_go (sep : string) (skip : nat) (cur : string) (s : string)
    : list string :=
  match s with
  | EmptyString => [String.rev cur]
  | String a s' =>
      match skip with
      | S k => split_go sep k cur s'
      | O =>
          if String.prefix sep s
          then String.rev cur :: split_go sep (pred (len sep)) EmptyString s'
          else split_go sep O (String a cur) s'
      end
  end.

Definition split (sep s : string) : list string :=
  split_go sep O EmptyString s.

(** [sep.join(l)] *)
Fixpoint join (sep : string) (l : list string) : string :=
  match l with
  | [] => EmptyString
  | [x] => x
  | x :: l' => x +:+ sep +:+ join sep l'
  end.

(** [c.isspace()] on ASCII. *)
Definition isspace (c : ascii) : bool :=
  let n := nat_of_ascii c in
  ((9 <=? n) && (n <=? 13) || (28 <=? n) && (n <=? 32))%nat.

(** [s.lstrip(chars)], the characters given as a test. *)
Fixpoint lstrip (p : ascii -> bool) (s : string) : string :=
  match s with
  | EmptyString => EmptyString
  | String a s' => if p a then lstrip p s' else s
  end.

Definition rstrip (p : ascii -> bool) (s : string) : string :=
  String.rev (lstrip p (String.rev s)).

(** [s.strip()] *)
Definition strip (s : string) : string := rstrip isspace (lstrip isspace s).

(** [s.replace(c, "")] *)
Fixpoint remove (c : ascii) (s : string) : string :=
  match s with
  | EmptyString => EmptyString
  | String a s' => if bool_decide (a = c) then remove c s' else String a (remove c s')
  end.

Definition isupper (c : ascii) : bool :=
  let n := nat_of_ascii c in ((65 <=? n) && (n <=? 90))%nat.
Definition islower (c : ascii) : bool :=
  let n := nat_of_ascii c in ((97 <=? n) && (n <=? 122))%nat.
Definition isdigit (c : ascii) : bool :=
  let n := nat_of_ascii c in ((48 <=? n) && (n <=? 57))%nat.
Definition isalpha (c : ascii) : bool := isupper c || islower c.

(** [s.lower()] *)
Definition lower_char (c : ascii) : ascii :=
  if isupper c then ascii_of_nat (nat_of_ascii c + 32) else c.

Fixpoint lower (s : string) : string :=
  match s with
  | EmptyString => EmptyString
  | String a s' => String (lower_char a) (lower s')
  end.

Fixpoint all_chars (p : ascii -> bool) (s : string) : bool :=
  match s with
  | EmptyString => true
  | String a s' => p a && all_chars p s'
  end.

(** The maximal runs of non-space characters of [s]. *)
Fixpoint tokens_go (cur : option string) (s : string) : list string :=
  match s with
  | EmptyString => option_list (String.rev <$> cur)
  | String a s' =>
      if isspace a
      then option_list (String.rev <$> cur) ++ tokens_go None s'
      else tokens_go (Some (String a (default EmptyString cur))) s'
  end.

Definition tokens (s : string) : list string := tokens_go None s.

End PyStr.

(** ** Library behaviour taken as given

    What the code obtains from the two netloc validators of [urllib.parse],
    from [dateutil] and from [datetime.strptime] is a parameter of the model.
    - [bracketed_netloc_ok netloc]: [_check_bracketed_netloc(netloc)]
      returns ([false]: it raises [ValueError]);
    - [nfkc_netloc_ok netloc]: the NFKC test of [_checknetloc] on a
      non-ASCII netloc passes ([false]: it raises [ValueError]);
    - [dateutil_parse text]: [dateutil.parser.parse(text).date()];
    - [strptime text format]: [datetime.datetime.strptime(text, format).date()],
      [None] being the [ValueError] of a text that does not match. *)
Class PyLib : Type := {
  bracketed_netloc_ok : string -> bool;
  nfkc_netloc_ok : string -> bool;
  dateutil_parse : string -> result date;
  strptime : string -> string -> option date
}.

(** ** [urllib.parse]: [urlsplit], [urlparse], [urlunparse], [urljoin] *)
Module Urllib.
Section Urllib.
Context `{PyLib}.

Definition uses_relative : list string :=
  [""; "ftp"; "http"; "gopher"; "nntp"; "imap"; "wais"; "file"; "https";
   "shttp"; "mms"; "prospero"; "rtsp"; "rtspu"; "sftp"; "svn"; "svn+ssh";
   "ws"; "wss"].

Definition uses_netloc : list string :=
  [""; "ftp"; "http"; "gopher"; "nntp"; "telnet"; "imap"; "wais"; "file";
   "mms"; "https"; "shttp"; "snews"; "prospero"; "rtsp"; "rtspu"; "rsync";
   "svn"; "svn+ssh"; "sftp"; "nfs"; "git"; "git+ssh"; "ws"; "wss"].

Definition uses_params : list string :=
  [""; "ftp"; "hdl"; "prospero"; "http"; "imap"; "https"; "shttp"; "rtsp";
   "rtspu"; "sip"; "sips"; "mms"; "sftp"; "tel"].

Definition scheme_char (c : ascii) : bool :=
  PyStr.isalpha c || PyStr.isdigit c || PyStr.has_char c "+-.".

(** [_WHATWG_C0_CONTROL_OR_SPACE] *)
Definition c0_control_or_space (c : ascii) : bool :=
  (nat_of_ascii c <=? 32)%nat.

Definition isascii (s : string) : bool :=
  PyStr.all_chars (fun c => (nat_of_ascii c <? 128)%nat) s.

Record SplitResult : Set := mkSplit {
  split_scheme : string; split_netloc : string; split_path : string;
  split_query : string; split_fragment : string }.

Record ParseResult : Set := mkParse {
  scheme : string; netloc : string; path : string;
  params : string; query : string; fragment : string }.

(** [_splitnetloc(url, 2)] *)
Fixpoint until_delim (s : string) : string * string :=
  match s with
  | EmptyString => (EmptyString, EmptyString)
  | String a s' =>
      if PyStr.has_char a "/?#" then (EmptyString, s)
      else let '(n, r) := until_delim s' in (String a n, r)
  end.

Definition splitnetloc (url : string) : string * string :=
  until_delim (PyStr.drop 2 url).

Definition unsafe_removed (s : string) : string :=
  PyStr.remove "010"%char (PyStr.remove "013"%char (PyStr.remove "009"%char s)).

(** The scheme of [url], if it has one, and what follows it; [scheme] is
    the default. *)
Definition split_off_scheme (url scheme : string) : string * string :=
  match PyStr.find ":"%char url, url with
  | Some (S i), String a _ =>
      if PyStr.isalpha a && PyStr.all_chars scheme_char (PyStr.take (S i) url)
      then (PyStr.lower (PyStr.take (S i) url), PyStr.drop (S (S i)) url)
      else (scheme, url)
  | _, _ => (scheme, url)
  end.

(** The netloc of a [url] that starts with two slashes, checked for
    brackets, and what follows it. *)
Definition split_off_netloc (url : string) : result (string * string) :=
  if String.eqb (PyStr.take 2 url) "//" then
    let '(netloc, url) := splitnetloc url in
    let lb := PyStr.has_char "["%char netloc in
    let rb := PyStr.has_char "]"%char netloc in
    if lb && negb rb || rb && negb lb then Raise ValueError
    else if lb && rb && negb (bracketed_netloc_ok netloc) then Raise ValueError
    else Ok (netloc, url)
  else Ok (EmptyString, url).

Definition urlsplit (url0 scheme0 : string) : result SplitResult :=
  let url := PyStr.lstrip c0_control_or_space url0 in
  let scheme :=
    PyStr.rstrip c0_control_or_space (PyStr.lstrip c0_control_or_space scheme0) in
  let url := unsafe_removed url in
  let scheme := unsafe_removed scheme in
  let '(scheme, url) := split_off_scheme url scheme in
  '(netloc, url) ← split_off_netloc url;
  let '(url, fragment) :=
    let '(b, _, a) := PyStr.partition "#"%char url in (b, a) in
  let '(url, query) :=
    let '(b, _, a) := PyStr.partition "?"%char url in (b, a) in
  if String.eqb netloc "" || isascii netloc || nfkc_netloc_ok netloc
  then Ok (mkSplit scheme netloc url query fragment)
  else Raise ValueError.

(** [_splitparams] *)
Definition splitparams (url : string) : string * string :=
  if PyStr.has_char "/"%char url then
    let start := default O (PyStr.rfind "/"%char url) in
    match PyStr.find ";"%char (PyStr.drop start url) with
    | None => (url, EmptyString)
    | Some j => (PyStr.take (start + j) url, PyStr.drop (S (start + j)) url)
    end
  else
    let i := default O (PyStr.find ";"%char url) in
    (PyStr.take i url, PyStr.drop (S i) url).

Definition urlparse_with (url scheme0 : string) : result ParseResult :=
  r ← urlsplit url scheme0;
  let '(url, params) :=
    if bool_decide (split_scheme r ∈ uses_params) && PyStr.has_char ";"%char (split_path r)
    then splitparams (split_path r)
    else (split_path r, EmptyString) in
  Ok (mkParse (split_scheme r) (split_netloc r) url params
        (split_query r) (split_fragment r)).

(** [urlparse(url)] *)
Definition urlparse (url : string) : result ParseResult :=
  urlparse_with url "".

Definition urlunsplit (scheme netloc url query fragment : string) : string :=
  let url :=
    if negb (String.eqb netloc "") ||
       (negb (String.eqb scheme "") && bool_decide (scheme ∈ uses_netloc)
          && negb (String.eqb (PyStr.take 2 url) "//"))
    then
      let url :=
        if negb (String.eqb url "") && negb (String.eqb (PyStr.take 1 url) "/")
        then "/" +:+ url else url in
      "//" +:+ netloc +:+ url
    else url in
  let url := if String.eqb scheme "" then url else scheme +:+ ":" +:+ url in
  let url := if String.eqb query "" then url else url +:+ "?" +:+ query in
  if String.eqb fragment "" then url else url +:+ "#" +:+ fragment.

Definition urlunparse (p : ParseResult) : string :=
  let url :=
    if String.eqb (params p) "" then path p else path p +:+ ";" +:+ params p in
  urlunsplit (scheme p) (netloc p) url (query p) (fragment p).

(** [segments[1:-1] = filter(None, segments[1:-1])] *)
Definition squeeze_middle (segments : list string) : list string :=
  match segments with
  | [] => []
  | x :: rest =>
      match last rest with
      | None => [x]
      | Some z =>
          x :: filter (fun s => s ≠ EmptyString) (removelast rest) ++ [z]
      end
  end.

(** The loop over [segments] that builds [resolved_path]. *)
Fixpoint resolve (segments resolved : list string) : list string :=
  match segments with
  | [] => resolved
  | seg :: segments' =>
      if String.eqb seg ".." then resolve segments' (removelast resolved)
      else if String.eqb seg "." then resolve segments' resolved
      else resolve segments' (resolved ++ [seg])
  end.

Definition urljoin (base url : string) : result string :=
  if String.eqb base "" then Ok url
  else if String.eqb url "" then Ok base
  else
    b ← urlparse_with base "";
    u ← urlparse_with url (scheme b);
    if negb (String.eqb (scheme u) (scheme b))
       || negb (bool_decide (scheme u ∈ uses_relative))
    then Ok url
    else if bool_decide (scheme u ∈ uses_netloc) && negb (String.eqb (netloc u) "")
    then Ok (urlunparse u)
    else
      let netloc' :=
        if bool_decide (scheme u ∈ uses_netloc) then netloc b else netloc u in
      if String.eqb (path u) "" && String.eqb (params u) "" then
        let query' := if String.eqb (query u) "" then query b else query u in
        Ok (urlunparse
              (mkParse (scheme u) netloc' (path b) (params b) query' (fragment u)))
      else
        let base_parts := PyStr.split "/" (path b) in
        let base_parts :=
          if bool_decide (last base_parts ≠ Some EmptyString)
          then removelast base_parts else base_parts in
        let segments :=
          if String.eqb (PyStr.take 1 (path u)) "/"
          then PyStr.split "/" (path u)
          else squeeze_middle (base_parts ++ PyStr.split "/" (path u)) in
        let resolved := resolve segments [] in
        let resolved :=
          if bool_decide (last segments = Some "." ∨ last segments = Some "..")
          then resolved ++ [EmptyString] else resolved in
        let joined := PyStr.join "/" resolved in
        let path' := if String.eqb joined "" then "/" else joined in
        Ok (urlunparse
              (mkParse (scheme u) netloc' path' (params u) (query u) (fragment u))).

End Urllib.
End Urllib.

(** ** The BeautifulSoup tree *)
Module Bs4.

(** A parsed document: text nodes and tags.  [attrs] is the tag's attribute
    dictionary; a multi-valued attribute such as [class] is kept as the
    string of the document and split into its tokens where it is tested. *)
#[warnings="-register-all"] Inductive node : Type :=
| NavigableString (s : string)
| Tag (name : string) (attrs : gmap string string) (contents : list node).

(** [tag.descendants]: every node below [n], in document order. *)
Fixpoint descendants (n : node) : list node :=
  match n with
  | NavigableString _ => []
  | Tag _ _ cs =>
      (fix below (l : list node) : list node :=
         match l with
         | [] => []
         | c :: l' => c :: descendants c ++ below l'
         end) cs
  end.

(** [tag.text] *)
Fixpoint text (n : node) : string :=
  match n with
  | NavigableString s => s
  | Tag _ _ cs =>
      (fix below (l : list node) : string :=
         match l with
         | [] => EmptyString
         | c :: l' => text c +:+ below l'
         end) cs
  end.

Definition named (nm : string) (n : node) : bool :=
  match n with
  | NavigableString _ => false
  | Tag nm' _ _ => String.eqb nm' nm
  end.

(** [tag.get(attr)] *)
Definition get (attr : string) (n : node) : option string :=
  match n with
  | NavigableString _ => None
  | Tag _ attrs _ => attrs !! attr
  end.

Definition has_class (c : string) (n : node) : bool :=
  match get "class" n with
  | Some v => bool_decide (c ∈ PyStr.tokens v)
  | None => false
  end.

(** [tag.find_all(nm)] and [tag.find(nm)] *)
Definition find_all (nm : string) (n : node) : list node :=
  filter (fun d => named nm d) (descendants n).

Definition find (nm : string) (n : node) : option node :=
  head (find_all nm n).

(** [tag.find_all(nm, {'class': c})] *)
Definition find_all_class (nm c : string) (n : node) : list node :=
  filter (fun d => named nm d && has_class c d) (descendants n).

(** [tag.select("." + c)] and [tag.select_one("." + c)] *)
Definition select_class (c : string) (n : node) : list node :=
  filter (fun d => has_class c d) (descendants n).

Definition select_one_class (c : string) (n : node) : option node :=
  head (select_class c n).

(** [tag.select_one(nm + "." + c)] *)
Definition select_one (nm c : string) (n : node) : option node :=
  head (find_all_class nm c n).

(** [tag.find(nm, {attr: v})] for a single-valued attribute such as [id]. *)
Definition find_attr (nm attr v : string) (n : node) : option node :=
  head (filter (fun d => named nm d && bool_decide (get attr d = Some v))
          (descendants n)).

End Bs4.
Export Bs4.

(** ** Records

    A record is a Python [dict] from field names to values; a list of results
    may also hold [None]. *)
Inductive value : Set :=
| VNone
| VStr (s : string)
| VDate (d : date).

#[export] Instance value_eq_dec : EqDecision value.
Proof. solve_decision. Defined.

Abbreviation pydict := (gmap string value).
Abbreviation pyobj := (option (gmap string value)).

Definition of_date (d : option date) : value :=
  match d with
  | Some d => VDate d
  | None => VNone
  end.

Definition of_str (s : option string) : value :=
  match s with
  | Some s => VStr s
  | None => VNone
  end.

(** [bool(r)]: [None] and the empty [dict] are false. *)
Definition truthy (r : pyobj) : bool :=
  match r with
  | None => false
  | Some d => bool_decide (d ≠ ∅)
  end.

(** [k in r], evaluated only where [r] is true. *)
Definition has_key (k : string) (r : pyobj) : bool :=
  match r with
  | None => false
  | Some d => bool_decide (is_Some (d !! k))
  end.

(** [r[k]] *)
Definition getitem (r : pyobj) (k : string) : result value :=
  match r with
  | None => Raise TypeError
  | Some d =>
      match d !! k with
      | Some v => Ok v
      | None => Raise KeyError
      end
  end.

(** [[x for x in l if p(x)]] with a test that may raise. *)
Fixpoint filter_m {A} (p : A -> result bool) (l : list A) : result (list A) :=
  match l with
  | [] => Ok []
  | x :: l' =>
      b ← p x;
      l'' ← filter_m p l';
      Ok (if b : bool then x :: l'' else l'')
  end.

(** The dict literal that every parser builds. *)
Definition record (source url title date domain : value) : pyobj :=
  Some (list_to_map
    [("source", source); ("url", url); ("title", title); ("date", date);
     ("domain", domain)]).

(** ** [class Utils] *)
Module Utils.
Section Utils.
Context `{PyLib}.

Definition absolute_link (url link : string) : result string :=
  if PyStr.startswith link "http" then Ok link
  else Urllib.urljoin url link.

Definition generic_paths : list string := ["/news/"; "/news"].

(** [urlparse(v).path not in ['/news/', '/news']] for the value [v] stored
    under ['url'].  [urlparse(None)] is the all-empty bytes result, whose
    path [b''] is no member of a list of [str]; a date has no [decode] and
    [urlparse] raises [AttributeError]. *)
Definition path_not_generic (v : value) : result bool :=
  match v with
  | VStr s =>
      p ← Urllib.urlparse s;
      Ok (bool_decide (Urllib.path p ∉ generic_paths))
  | VNone => Ok true
  | VDate _ => Raise AttributeError
  end.

Definition remove_generic_urls (results : list pyobj) : result (list pyobj) :=
  match results with
  | [] => Ok []
  | _ =>
      let filtered_results :=
        filter (fun r => truthy r && has_key "url" r) results in
      filter_m (fun r => v ← getitem r "url"; path_not_generic v)
        filtered_results
  end.

End Utils.
End Utils.

(** [l[-1]] and [l[0]] *)
Definition index_last {A} (l : list A) : result A :=
  match last l with
  | Some x => Ok x
  | None => Raise IndexError
  end.

Definition index_first {A} (l : list A) : result A :=
  match head l with
  | Some x => Ok x
  | None => Raise IndexError
  end.

(** [tag.find(nm).text if tag.find(nm) else ''] *)
Definition text_or_empty (nm : string) (n : node) : string :=
  match find nm n with
  | Some t => text t
  | None => EmptyString
  end.

(** [f"{x}"] for the result of [tag.get]. *)
Definition fstr (x : option string) : string := default "None" x.

(** [for x in xs:] with a body that either [continue]s ([None]) or appends
    one record to [results]; an exception raised by the body ends the loop. *)
Fixpoint for_each {A} (body : A → result (option pyobj)) (xs : list A)
    (results : list pyobj) : result (list pyobj) :=
  match xs with
  | [] => Ok results
  | x :: xs' =>
      r ← body x;
      match r with
      | None => for_each body xs' results
      | Some result => for_each body xs' (results ++ [result])
      end
  end.

(** ** [class Feed] *)
Module Feed.
Section Feed.
Context `{PyLib}.

(** [Feed.open_rss]: the response to a request for the URL, parsed; [None]
    when the request or the parser raised. *)
Variable open_rss : string -> option node.

(** The date that the Mikulski branch reads from the link. *)
Definition date_from_link (link_text : string) : result (option date) :=
  name ← index_last (PyStr.split "/" link_text);
  let date_part := take 3 (PyStr.split "-" name) in
  date_str ← index_first (PyStr.split ".cfm" (PyStr.join "/" date_part));
  Some <$> dateutil_parse date_str.

Definition date_from_rss_item (item : node) : result (option date) :=
  let from_link : result (option date) :=
    match find "link" item with
    | Some link =>
        if negb (String.eqb (text link) "")
           && PyStr.contains "mikulski.senate.gov" (text link)
           && PyStr.contains "-2014" (text link)
        then try_except (date_from_link (text link)) [ValueError; IndexError]
               (Ok None)
        else Ok None
    | None => Ok None
    end in
  let from_pubdate : result (option date) :=
    match find "pubdate" item with
    | Some pub_date =>
        if negb (String.eqb (text pub_date) "")
        then try_except (Some <$> dateutil_parse (text pub_date))
               [ValueError; TypeError] from_link
        else from_link
    | None => from_link
    end in
  match find "pubDate" item with
  | Some pub_date =>
      if negb (String.eqb (text pub_date) "")
      then try_except (Some <$> dateutil_parse (text pub_date))
             [ValueError; TypeError] from_pubdate
      else from_pubdate
  | None => from_pubdate
  end.

Definition burr_feed : string :=
  "http://www.burr.senate.gov/public/index.cfm?FuseAction=RSS.Feed".
Definition johanns_feed : string :=
  "http://www.johanns.senate.gov/public/?a=RSS.Feed".

(** The body of the [for item in items] loop of [parse_rss]: [None] is
    [continue], [Some r] the record appended to [results]. *)
Definition rss_item (url : string) (item : node) : result (option pyobj) :=
  match find "link" item with
  | None => Ok None
  | Some link_tag =>
      let link := text link_tag in
      abs_link ← Utils.absolute_link url link;
      let abs_link :=
        if String.eqb url burr_feed
        then "http://www.burr.senate.gov/public/" +:+ link
        else if String.eqb url johanns_feed then PyStr.drop 37 link
        else abs_link in
      date ← date_from_rss_item item;
      u ← Urllib.urlparse url;
      Ok (Some (record (VStr url) (VStr abs_link)
                  (VStr (text_or_empty "title" item)) (of_date date)
                  (VStr (Urllib.netloc u))))
  end.

Definition parse_rss (doc : node) (url : string) : result (list pyobj) :=
  match find_all "item" doc with
  | [] => Ok []
  | items =>
      results ← for_each (rss_item url) items [];
      Utils.remove_generic_urls results
  end.

Definition atom_format : string := "%Y-%m-%dT%H:%M:%S%z".

(** The body of the [for entry in entries] loop of [parse_atom]. *)
Definition atom_entry (url : string) (entry : node) : result (option pyobj) :=
  match find "link" entry with
  | None => Ok None
  | Some link =>
      let pub_date :=
        match find "published" entry with
        | Some p => Some p
        | None => find "updated" entry
        end in
      date ←
        match pub_date with
        | Some p =>
            match strptime (text p) atom_format with
            | Some d => Ok (Some d)
            | None => Raise ValueError
            end
        | None => Ok None
        end;
      u ← Urllib.urlparse url;
      Ok (Some (record (VStr url) (of_str (get "href" link))
                  (VStr (text_or_empty "title" entry)) (of_date date)
                  (VStr (Urllib.netloc u))))
  end.

Definition parse_atom (doc : node) (url : string) : result (list pyobj) :=
  match find_all "entry" doc with
  | [] => Ok []
  | entries => for_each (atom_entry url) entries []
  end.

Definition from_rss (url : string) : result (list pyobj) :=
  match open_rss url with
  | None => Ok []
  | Some doc =>
      match find "feed" doc with
      | Some _ => parse_atom doc url
      | None => parse_rss doc url
      end
  end.

(** The loop of [batch]; [except Exception] catches every [exn]. *)
Fixpoint batch_loop (urls : list string) (results : list pyobj)
    (failures : list string) : list pyobj * list string :=
  match urls with
  | [] => (results, failures)
  | url :: urls' =>
      match from_rss url with
      | Ok [] => batch_loop urls' results (failures ++ [url])
      | Ok feed_results => batch_loop urls' (results ++ feed_results) failures
      | Raise _ => batch_loop urls' results (failures ++ [url])
      end
  end.

Definition batch (urls : list string) : list pyobj * list string :=
  batch_loop urls [] [].

End Feed.
End Feed.

(** ** [class Scraper] *)
Module Scraper.
Section Scraper.
Context `{PyLib}.

(** [Scraper.open_html]: the parsed page, [None] when the request failed. *)
Variable open_html : string -> option node.

Definition crapo_url (page : Z) : string :=
  "https://www.crapo.senate.gov/media/newsreleases/?PageNum_rs="
    +:+ str_of_int page +:+ "&".

(** The two nested [try] blocks that read the date of a block. *)
Definition crapo_date (date_text : option string) : option date :=
  match date_text with
  | None => None
  | Some t =>
      if String.eqb t "" then None
      else
        match strptime t "%m.%d.%y" with
        | Some d => Some d
        | None => strptime t "%B %d, %Y"
        end
  end.

Definition crapo_block (url : string) (block : node) : option pyobj :=
  match find "a" block with
  | None => None
  | Some link =>
      let href := get "href" link in
      let title := PyStr.strip (text link) in
      let date_text := text <$> find "p" block in
      Some (record (VStr url) (of_str href) (VStr title)
              (of_date (crapo_date date_text)) (VStr "www.crapo.senate.gov"))
  end.

Fixpoint crapo_loop (url : string) (blocks : list node) (results : list pyobj)
    : list pyobj :=
  match blocks with
  | [] => results
  | block :: blocks' =>
      match crapo_block url block with
      | None => crapo_loop url blocks' results
      | Some result => crapo_loop url blocks' (results ++ [result])
      end
  end.

Definition crapo (page : Z) : list pyobj :=
  let url := crapo_url page in
  match open_html url with
  | None => []
  | Some doc => crapo_loop url (find_all_class "div" "ArticleBlock" doc) []
  end.

Definition meeks_url (page : Z) : string :=
  "https://meeks.house.gov/media/press-releases?page=" +:+ str_of_int page.

Definition meeks_row (url : string) (row : node) : option pyobj :=
  match select_one "a" "h4" row, select_one_class "evo-card-date" row with
  | Some link, Some date_elem =>
      let date := strptime (PyStr.strip (text date_elem)) "%B %d, %Y" in
      Some (record (VStr url)
              (VStr ("https://meeks.house.gov" +:+ fstr (get "href" link)))
              (VStr (PyStr.strip (text link))) (of_date date)
              (VStr "meeks.house.gov"))
  | _, _ => None
  end.

Fixpoint meeks_loop (url : string) (rows : list node) (results : list pyobj)
    : list pyobj :=
  match rows with
  | [] => results
  | row :: rows' =>
      match meeks_row url row with
      | None => meeks_loop url rows' results
      | Some result => meeks_loop url rows' (results ++ [result])
      end
  end.

Definition meeks (page : Z) : list pyobj :=
  let url := meeks_url page in
  match open_html url with
  | None => []
  | Some doc => meeks_loop url (take 10 (select_class "views-row" doc)) []
  end.

Definition bera_url (page : Z) : string :=
  "https://bera.house.gov/news/documentquery.aspx?DocumentTypeID=2402&Page="
    +:+ str_of_int page.

(** The date of a [time] element from its [datetime] attribute; a missing
    attribute is the [TypeError] of [strptime(None, ...)], caught like the
    [ValueError] of a text that does not match. *)
Definition bera_date (time_elem : node) : option date :=
  match get "datetime" time_elem with
  | Some date_attr => strptime date_attr "%Y-%m-%d"
  | None => None
  end.

Definition bera_row (url : string) (row : node) : option pyobj :=
  match find "a" row, find "time" row with
  | Some link, Some time_elem =>
      Some (record (VStr url)
              (VStr ("https://bera.house.gov/news/" +:+ fstr (get "href" link)))
              (VStr (PyStr.strip (text link))) (of_date (bera_date time_elem))
              (VStr "bera.house.gov"))
  | _, _ => None
  end.

Fixpoint bera_loop (url : string) (rows : list node) (results : list pyobj)
    : list pyobj :=
  match rows with
  | [] => results
  | row :: rows' =>
      match bera_row url row with
      | None => bera_loop url rows' results
      | Some result => bera_loop url rows' (results ++ [result])
      end
  end.

Definition bera (page : Z) : list pyobj :=
  let url := bera_url page in
  match open_html url with
  | None => []
  | Some doc => bera_loop url (find_all "article" doc) []
  end.

Definition castor_url (page : Z) : string :=
  "https://castor.house.gov/news/documentquery.aspx?DocumentTypeID=821&Page="
    +:+ str_of_int page.

(** The body of the loop of [castor]: [link.get('href').strip()] raises
    [AttributeError] when the anchor has no [href]. *)
Definition castor_row (url : string) (row : node) : result (option pyobj) :=
  match find "a" row, find "time" row with
  | Some link, Some time_elem =>
      let date := strptime (PyStr.strip (text time_elem)) "%B %d, %Y" in
      href ←
        match get "href" link with
        | Some h => Ok (PyStr.strip h)
        | None => Raise AttributeError
        end;
      Ok (Some (record (VStr url)
                  (VStr ("https://castor.house.gov/news/" +:+ href))
                  (VStr (PyStr.strip (text link))) (of_date date)
                  (VStr "castor.house.gov")))
  | _, _ => Ok None
  end.

Definition castor (page : Z) : result (list pyobj) :=
  let url := castor_url page in
  match open_html url with
  | None => Ok []
  | Some doc => for_each (castor_row url) (find_all "article" doc) []
  end.

(** [dict(param.split('=') for param in params)]: every element must have
    two parts, a later key replaces an earlier one. *)
Fixpoint query_dict (params : list string) (d : gmap string string)
    : result (gmap string string) :=
  match params with
  | [] => Ok d
  | param :: params' =>
      match PyStr.split "=" param with
      | [k; v] => query_dict params' (<[k := v]> d)
      | _ => Raise ValueError
      end
  end.

(** The [try] block of [house_gop]: the date of the [Date] parameter of the
    query, [None] when anything in the block raises. *)
Definition house_gop_date (query : string) : option date :=
  match query_dict (PyStr.split "&" query) ∅ with
  | Ok d =>
      match d !! "Date" with
      | Some date_param =>
          if String.eqb date_param "" then None
          else strptime date_param "%m/%d/%Y"
      | None => None
      end
  | Raise _ => None
  end.

(** The body of the loop of [house_gop]: [absolute_link(url, None)] raises
    [AttributeError] at [link.startswith]. *)
Definition house_gop_link (url : string) (date : option date) (link : node)
    : result (option pyobj) :=
  match get "href" link with
  | None => Raise AttributeError
  | Some href =>
      abs_link ← Utils.absolute_link url href;
      u ← Urllib.urlparse href;
      Ok (Some (record (VStr url) (VStr abs_link)
                  (VStr (PyStr.strip (text link))) (of_date date)
                  (VStr (Urllib.netloc u))))
  end.

Definition house_gop (url : string) : result (list pyobj) :=
  match open_html url with
  | None => Ok []
  | Some doc =>
      uri ← Urllib.urlparse url;
      let date := house_gop_date (Urllib.query uri) in
      match find_attr "ul" "id" "membernews" doc with
      | None => Ok []
      | Some member_news =>
          results ←
            for_each (house_gop_link url date) (find_all "a" member_news) [];
          Utils.remove_generic_urls results
      end
  end.

End Scraper.
End Scraper.

(** ** A reference library

    Date parsers for the texts the examples below use: [strptime] reads the
    directives that the code's formats name ([%Y %y %m %d %B %H %M %S %z])
    and literal characters; [dateutil_parse] reads RFC 822 dates and
    [MM/DD/YYYY].  Every netloc passes the two validators, which
    [urllib.parse] consults only for a netloc with brackets or non-ASCII
    characters. *)
Module RefLib.

(** Up to [k] leading decimal digits of [s]: their value, their number and
    the rest of [s]. *)
Fixpoint digits (k : nat) (s : string) (acc : Z) (n : nat) : Z * nat * string :=
  match k, s with
  | S k', String a s' =>
      if PyStr.isdigit a
      then digits k' s' (10 * acc + Z.of_nat (nat_of_ascii a - 48)) (S n)
      else (acc, n, s)
  | _, _ => (acc, n, s)
  end.

Definition month_names : list string :=
  ["january"; "february"; "march"; "april"; "may"; "june"; "july"; "august";
   "september"; "october"; "november"; "december"].

Definition month_abbrevs : list string :=
  ["jan"; "feb"; "mar"; "apr"; "may"; "jun"; "jul"; "aug"; "sep"; "oct";
   "nov"; "dec"].

(** The month whose name, from [names], starts [s], and the rest of [s]. *)
Fixpoint month_prefix (names : list string) (i : Z) (s : string)
    : option (Z * string) :=
  match names with
  | [] => None
  | nm :: names' =>
      if String.prefix nm (PyStr.lower s)
      then Some (i, PyStr.drop (PyStr.len nm) s)
      else month_prefix names' (i + 1) s
  end.

Definition leap (y : Z) : bool :=
  (y mod 4 =? 0) && (negb (y mod 100 =? 0) || (y mod 400 =? 0)).

Definition days_in_month (y m : Z) : Z :=
  if m =? 2 then (if leap y then 29 else 28)
  else if (m =? 4) || (m =? 6) || (m =? 9) || (m =? 11) then 30
  else 31.

Definition valid_date (d : date) : bool :=
  (1 <=? year d) && (year d <=? 9999) && (1 <=? month d) && (month d <=? 12)
  && (1 <=? day d) && (day d <=? days_in_month (year d) (month d)).

(** A number of [lo..hi] digits with a value in [a..b]. *)
Definition number (lo hi : nat) (a b : Z) (s : string) : option (Z * string) :=
  let '(v, n, rest) := digits hi s 0 O in
  if (lo <=? n)%nat && (a <=? v) && (v <=? b) then Some (v, rest) else None.

(** [%z]: [Z], or a sign, two digits, an optional colon and two digits. *)
Definition utc_offset (s : string) : option string :=
  match s with
  | String "Z" rest => Some rest
  | String sign rest =>
      if PyStr.has_char sign "+-" then
        '(_, rest) ← number 2 2 0 23 rest;
        let rest := match rest with String ":" r => r | _ => rest end in
        '(_, rest) ← number 2 2 0 59 rest;
        Some rest
      else None
  | EmptyString => None
  end.

Fixpoint strptime_go (fmt s : string) (d : date) : option date :=
  match fmt with
  | EmptyString => if String.eqb s "" then Some d else None
  | String "%" (String c fmt') =>
      if Ascii.eqb c "Y" then
        '(v, rest) ← number 4 4 0 9999 s;
        strptime_go fmt' rest (Date v (month d) (day d))
      else if Ascii.eqb c "y" then
        '(v, rest) ← number 2 2 0 99 s;
        strptime_go fmt' rest
          (Date (if v <=? 68 then 2000 + v else 1900 + v) (month d) (day d))
      else if Ascii.eqb c "m" then
        '(v, rest) ← number 1 2 1 12 s;
        strptime_go fmt' rest (Date (year d) v (day d))
      else if Ascii.eqb c "d" then
        '(v, rest) ← number 1 2 1 31 s;
        strptime_go fmt' rest (Date (year d) (month d) v)
      else if Ascii.eqb c "B" then
        '(v, rest) ← month_prefix month_names 1 s;
        strptime_go fmt' rest (Date (year d) v (day d))
      else if Ascii.eqb c "H" then
        '(_, rest) ← number 1 2 0 23 s; strptime_go fmt' rest d
      else if Ascii.eqb c "M" then
        '(_, rest) ← number 1 2 0 59 s; strptime_go fmt' rest d
      else if Ascii.eqb c "S" then
        '(_, rest) ← number 1 2 0 61 s; strptime_go fmt' rest d
      else if Ascii.eqb c "z" then
        rest ← utc_offset s; strptime_go fmt' rest d
      else None
  | String c fmt' =>
      match s with
      | String a rest => if Ascii.eqb a c then strptime_go fmt' rest d else None
      | EmptyString => None
      end
  end.

Definition ref_strptime (text fmt : string) : option date :=
  d ← strptime_go fmt text (Date 1900 1 1);
  if valid_date d then Some d else None.

(** [DD Mon YYYY] after an optional day name, then a time and a zone. *)
Definition rfc822 (text : string) : option date :=
  let ws := PyStr.tokens text in
  let ws :=
    match ws with
    | w :: ws' => if PyStr.has_char "," w then ws' else ws
    | [] => ws
    end in
  match ws with
  | dd :: mon :: yyyy :: _ =>
      '(d, r1) ← number 1 2 1 31 dd;
      '(m, r2) ← month_prefix month_abbrevs 1 mon;
      '(y, r3) ← number 4 4 0 9999 yyyy;
      if String.eqb r1 "" && String.eqb r2 "" && String.eqb r3 ""
      then Some (Date y m d) else None
  | _ => None
  end.

Definition ref_dateutil_parse (text : string) : result date :=
  let found :=
    match rfc822 text with
    | Some d => Some d
    | None => strptime_go "%m/%d/%Y" text (Date 1900 1 1)
    end in
  match found with
  | Some d => if valid_date d then Ok d else Raise ValueError
  | None => Raise ValueError
  end.

Definition lib : PyLib := {|
  bracketed_netloc_ok := fun _ => true;
  nfkc_netloc_ok := fun _ => true;
  dateutil_parse := ref_dateutil_parse;
  strptime := ref_strptime |}.

End RefLib.


(** ** Documents and records for the examples *)
Definition el (nm : string) (cs : list node) : node := Tag nm ∅ cs.
Definition txt (nm s : string) : node := Tag nm ∅ [NavigableString s].
Definition document (cs : list node) : node := Tag "[document]" ∅ cs.

(** ** The result filter as the specification words it

    A record is kept when it is present, has a [url] field, and the path of
    that url is no generic index path. *)
Definition keeps `{PyLib} (r : pyobj) : bool :=
  match r with
  | None => false
  | Some d =>
      match d !! "url" with
      | None => false
      | Some v =>
          match Utils.path_not_generic v with
          | Ok b => b
          | Raise _ => false
          end
      end
  end.

(** [urlparse] returns on the url of [r], if [r] has one. *)
Definition url_parses `{PyLib} (r : pyobj) : Prop :=
  ∀ d v, r = Some d → d !! "url" = Some v →
    ∃ b, Utils.path_not_generic v = Ok b.

(** The test of a comprehension read as a boolean: a test that raises keeps
    nothing. *)
Definition passes {A} (p : A → result bool) (x : A) : bool :=
  match p x with
  | Ok b => b
  | Raise _ => false
  end.

(** The two tests of [remove_generic_urls]. *)
Definition has_url (r : pyobj) : bool := truthy r && has_key "url" r.
Definition url_test `{PyLib} (r : pyobj) : result bool :=
  v ← getitem r "url"; Utils.path_not_generic v.

(** The three records of the filter scenario. *)
Definition news_index : pyobj := Some {[ "url" := VStr "http://x.gov/news/" ]}.
Definition release_9 : pyobj := Some {[ "url" := VStr "http://x.gov/release/9" ]}.

(** ** The date fallback chain as the specification words it

    A step finds a date, fails, or lets an exception escape that its
    [except] clause does not name. *)
Inductive step : Set :=
| Found (d : date)
| Failed
| Escaped (e : exn).

Definition guarded (catch : list exn) (attempt : result (option date)) : step :=
  match attempt with
  | Ok (Some d) => Found d
  | Ok None => Failed
  | Raise e => if bool_decide (e ∈ catch) then Failed else Escaped e
  end.

(** The step that parses the text of the element [nm] of the item. *)
Definition element_step `{PyLib} (nm : string) (item : node) : step :=
  match find nm item with
  | None => Failed
  | Some t =>
      if String.eqb (text t) "" then Failed
      else guarded [ValueError; TypeError] (Some <$> dateutil_parse (text t))
  end.

(** The link is one of the source whose URLs carry the date. *)
Definition link_matches (item : node) : bool :=
  match find "link" item with
  | Some link =>
      PyStr.contains "mikulski.senate.gov" (text link)
      && PyStr.contains "-2014" (text link)
  | None => false
  end.

(** The step that reads the date from the path of the link. *)
Definition link_step `{PyLib} (item : node) : step :=
  if link_matches item
  then guarded [ValueError; IndexError]
         (Feed.date_from_link (text_or_empty "link" item))
  else Failed.

(** The first step that does not fail decides. *)
Fixpoint first_found (steps : list step) : result (option date) :=
  match steps with
  | [] => Ok None
  | Found d :: _ => Ok (Some d)
  | Failed :: steps' => first_found steps'
  | Escaped e :: _ => Raise e
  end.

(** A page of [n] press-release rows. *)
Definition meeks_card (i : nat) : node :=
  Tag "div" {[ "class" := "views-row" ]}
    [Tag "a" {[ "class" := "h4"; "href" := "/media/press-releases/r" ]}
       [NavigableString "Release"];
     Tag "div" {[ "class" := "evo-card-date" ]} [NavigableString "April 15, 2023"]].

Definition meeks_page (n : nat) : node :=
  document [el "html" [el "body" (meeks_card <$> seq 0 n)]].

(** An item of the Mikulski feed. *)
Definition mikulski_item : node :=
  el "item"
    [txt "link" "http://www.mikulski.senate.gov/media/pressrelease/01-15-2014.cfm"].

(** ** The outcome of one feed in [batch] *)

(** The request for the feed failed. *)
Definition fetch_failed (open_rss : string → option node) (url : string) : bool :=
  match open_rss url with
  | None => true
  | Some _ => false
  end.

(** [from_rss] raised or returned no record. *)
Definition unusable `{PyLib} (open_rss : string → option node) (url : string)
    : bool :=
  match Feed.from_rss open_rss url with
  | Ok (_ :: _) => false
  | _ => true
  end.

Definition records_of (r : result (list pyobj)) : list pyobj :=
  match r with
  | Ok l => l
  | Raise _ => []
  end.

(** A feed that is served but has no item. *)
Definition empty_feed : node :=
  document [el "rss" [el "channel" [txt "title" "Nothing yet"]]].

(** A feed with one release. *)
Definition one_release_feed : node :=
  document
    [el "rss" [el "channel"
       [el "item" [txt "title" "Release"; txt "link" "http://x.gov/release/9"]]]].

(** Three feeds: the first is served with a release, the second cannot be
    fetched, the third is served empty. *)
Definition three_feeds (url : string) : option node :=
  if String.eqb url "http://x.gov/rss" then Some one_release_feed
  else if String.eqb url "http://y.gov/rss" then None
  else Some empty_feed.

(** ** Adapters and their urls *)

(** [url] has a scheme and an authority. *)
Definition absolute `{PyLib} (url : value) : bool :=
  match url with
  | VStr s =>
      match Urllib.urlparse s with
      | Ok p =>
          negb (String.eqb (Urllib.scheme p) "")
          && negb (String.eqb (Urllib.netloc p) "")
      | Raise _ => false
      end
  | _ => false
  end.

(** The item has a [link] element. *)
Definition has_link (item : node) : bool :=
  match find "link" item with
  | Some _ => true
  | None => false
  end.

(** A page of the Crapo site with a relative href, as the repository's test
    of [crapo] builds it. *)
Definition crapo_page : node :=
  document
    [el "html" [el "body"
       [Tag "div" {[ "class" := "ArticleBlock" ]}
          [Tag "a" {[ "href" := "/press-release/1" ]}
             [NavigableString "Press Release Title 1"];
           txt "p" "04.15.23"]]]].

Definition crapo_record : pyobj :=
  record (VStr "https://www.crapo.senate.gov/media/newsreleases/?PageNum_rs=1&")
    (VStr "/press-release/1") (VStr "Press Release Title 1")
    (VDate (Date 2023 4 15)) (VStr "www.crapo.senate.gov").

(** An Atom feed whose entry links to the news index. *)
Definition atom_news : node :=
  document
    [el "feed"
       [el "entry"
          [Tag "link" {[ "href" := "http://x.gov/news/" ]} []; txt "title" "News"]]].

Definition atom_news_record : pyobj :=
  record (VStr "http://x.gov/atom") (VStr "http://x.gov/news/") (VStr "News")
    VNone (VStr "x.gov").

(** An Atom feed whose entry carries a date in another format. *)
Definition atom_bad_date : node :=
  document
    [el "feed"
       [el "entry"
          [Tag "link" {[ "href" := "http://x.gov/release/9" ]} [];
           txt "title" "Release"; txt "published" "January 1, 2024"]]].

(** The RSS document of the scenario: one item, no title. *)
Definition scenario_item : node :=
  el "item"
    [txt "link" "http://x.gov/a"; txt "pubDate" "Mon, 01 Jan 2024 00:00:00 GMT"].

Definition rss_scenario : node :=
  document [el "rss" [el "channel" [scenario_item]]].

Definition rss_scenario_record : pyobj :=
  record (VStr "http://x.gov/rss") (VStr "http://x.gov/a") (VStr "")
    (VDate (Date 2024 1 1)) (VStr "x.gov").

(** An RSS item that links to the news index. *)
Definition news_item : node :=
  el "item" [txt "title" "News"; txt "link" "http://x.gov/news"].

Definition rss_news_link : node :=
  document [el "rss" [el "channel" [news_item]]].

(** ** Pages for the scrapers *)

(** An article as [bera] and [castor] read it. *)
Definition article (href : option string) (title day : string) : node :=
  el "article"
    [el "h2"
       [Tag "a" (match href with
                 | Some h => {[ "href" := h ]}
                 | None => ∅
                 end) [NavigableString title]];
     Tag "time" {[ "datetime" := day ]} [NavigableString day]].

Definition bera_page : node :=
  document
    [el "html" [el "body"
       [article (Some "documentsingle.aspx?DocumentID=1") "First" "2024-01-01";
        article None "Second" "2024-01-02"]]].

(** A page of member news as [house_gop] reads it. *)
Definition house_gop_page : node :=
  document
    [el "html" [el "body"
       [Tag "ul" {[ "id" := "membernews" ]}
          [el "li" [Tag "a" {[ "href" := "http://member.house.gov/release/1" ]}
                      [NavigableString " Release one "]];
           el "li" [Tag "a" {[ "href" := "/news/" ]} [NavigableString "News"]];
           el "li" [Tag "a" {[ "href" := "/release/2" ]}
                      [NavigableString "Release two"]]]]]].

Definition house_gop_address : string :=
  "http://www.gop.gov/republicans/news?Date=01/15/2014&offices=all".

(** ** Netlocs and links

    The tests that [urlsplit] applies to a netloc, as predicates: a netloc
    has none of the delimiters [/?#] and none of the characters that
    [urlsplit] removes, its brackets pass, and it is empty, ASCII, or passes
    the NFKC test. *)
Definition is_delim (c : ascii) : bool := PyStr.has_char c "/?#".

Definition is_unsafe (c : ascii) : bool :=
  PyStr.has_char c (String "009" (String "013" (String "010" ""))).

Definition no_delim (s : string) : bool :=
  PyStr.all_chars (λ c, negb (is_delim c)) s.

Definition no_unsafe (s : string) : bool :=
  PyStr.all_chars (λ c, negb (is_unsafe c)) s.

Definition brackets_ok `{PyLib} (n : string) : bool :=
  let lb := PyStr.has_char "["%char n in
  let rb := PyStr.has_char "]"%char n in
  negb (lb && negb rb || rb && negb lb)
  && negb (lb && rb && negb (bracketed_netloc_ok n)).

Definition netloc_check `{PyLib} (n : string) : bool :=
  String.eqb n "" || Urllib.isascii n || nfkc_netloc_ok n.

(** What can follow a netloc in a URL: nothing, or a delimiter. *)
Definition tail_ok (r : string) : Prop :=
  r = "" ∨ ∃ c t, r = String c t ∧ is_delim c = true.

(** What [urlunsplit] writes for the scheme. *)
Definition scheme_prefix (sch : string) : string :=
  if String.eqb sch "" then "" else sch +:+ ":".

(** [Utils.absolute_link(url, link)] for a [link] that is the value of
    [tag.get('href')], a string or [None]: [None.startswith] raises
    [AttributeError]. *)
Definition absolute_link_of `{PyLib} (url : string) (link : option string)
    : result string :=
  match link with
  | None => Raise AttributeError
  | Some l => Utils.absolute_link url l
  end.

(** * Properties *)

(** ** Lists *)
Lemma filter_bool_cons {A} (f : A → bool) (x : A) (l : list A) :
  filter (λ y, f y) (x :: l) = if f x then x :: filter (λ y, f y) l else filter (λ y, f y) l.
Proof.
  rewrite filter_cons. destruct (f x); case_decide; simpl in *; done.
Qed.

Lemma bind_Ok {A B} (r : result A) (f : A → result B) (b : B) :
  r ≫= f = Ok b → ∃ a, r = Ok a ∧ f a = Ok b.
Proof. destruct r as [a|e]; simpl; [eauto | discriminate]. Qed.

Lemma filter_m_Ok {A} (p : A → result bool) (l l' : list A) :
  filter_m p l = Ok l' → l' = filter (λ x, passes p x) l.
Proof.
  revert l'. induction l as [|x l IH]; intros l' Hl; simpl in Hl.
  - by inversion Hl.
  - apply bind_Ok in Hl as (b & Hb & Hl).
    apply bind_Ok in Hl as (l'' & Hl'' & Hl).
    rewrite filter_bool_cons.
    assert (passes p x = b) as -> by (unfold passes; by rewrite Hb).
    rewrite <- (IH _ Hl''). inversion Hl. by destruct b.
Qed.

Lemma filter_m_returns {A} (p : A → result bool) (l : list A) :
  Forall (λ x, ∃ b, p x = Ok b) l → filter_m p l = Ok (filter (λ x, passes p x) l).
Proof.
  induction 1 as [|x l [b Hb] _ IH]; [done|].
  simpl. rewrite Hb, IH. simpl. rewrite filter_bool_cons.
  assert (passes p x = b) as -> by (unfold passes; by rewrite Hb).
  by destruct b.
Qed.

Lemma filter_m_fixed {A} (p : A → result bool) (l : list A) :
  Forall (λ x, p x = Ok true) l → filter_m p l = Ok l.
Proof.
  induction 1 as [|x l Hx _ IH]; [done|]. simpl. by rewrite Hx, IH.
Qed.

(** ** [Utils.remove_generic_urls] *)
Section remove_generic_urls.
Context `{PyLib}.

Lemma remove_generic_urls_eq (results : list pyobj) :
  Utils.remove_generic_urls results
  = filter_m url_test (filter (λ r, has_url r) results).
Proof. by destruct results. Qed.

Lemma has_url_Some (r : pyobj) :
  has_url r = true ↔ ∃ d v, r = Some d ∧ d !! "url" = Some v.
Proof.
  unfold has_url. destruct r as [d|]; simpl.
  - split.
    + intros [_ Hk]%andb_true_iff. apply bool_decide_eq_true in Hk as [v Hv]. eauto.
    + intros (d' & v & [= <-] & Hv). apply andb_true_iff. split.
      * apply bool_decide_eq_true. intros ->. by rewrite lookup_empty in Hv.
      * apply bool_decide_eq_true. eauto.
  - split; [done|]. by intros (? & ? & ? & _).
Qed.

Lemma keeps_has_url (r : pyobj) :
  keeps r = has_url r && passes url_test r.
Proof.
  destruct (has_url r) eqn:Hu.
  - apply has_url_Some in Hu as (d & v & -> & Hv).
    unfold keeps, passes, url_test. simpl. by rewrite Hv.
  - simpl. destruct r as [d|]; [|done]. simpl.
    destruct (d !! "url") as [v|] eqn:Hv; [|done].
    assert (has_url (Some d) = true) by (apply has_url_Some; eauto). congruence.
Qed.

Lemma filter_keeps (results : list pyobj) :
  filter (λ r, passes url_test r) (filter (λ r, has_url r) results)
  = filter (λ r, keeps r) results.
Proof.
  induction results as [|r l IH]; [done|].
  rewrite (filter_bool_cons has_url), (filter_bool_cons keeps), keeps_has_url.
  destruct (has_url r); simpl; [|done].
  rewrite (filter_bool_cons (passes url_test)), IH. by destruct (passes url_test r).
Qed.

Lemma remove_generic_urls_Ok (results kept : list pyobj) :
  Utils.remove_generic_urls results = Ok kept →
  kept = filter (λ r, keeps r) results.
Proof.
  rewrite remove_generic_urls_eq. intros ->%filter_m_Ok. apply filter_keeps.
Qed.

Lemma remove_generic_urls_returns (results : list pyobj) :
  Forall url_parses results →
  Utils.remove_generic_urls results = Ok (filter (λ r, keeps r) results).
Proof.
  intros Hall. rewrite remove_generic_urls_eq, <- filter_keeps.
  apply filter_m_returns. apply Forall_forall. intros r [Hr Hin]%list_elem_of_filter.
  apply Is_true_true, has_url_Some in Hr as (d & v & -> & Hv).
  rewrite Forall_forall in Hall. destruct (Hall _ Hin d v eq_refl Hv) as [b Hb].
  exists b. unfold url_test. simpl. by rewrite Hv.
Qed.

Lemma keeps_url_test (r : pyobj) : keeps r = true → url_test r = Ok true.
Proof.
  rewrite keeps_has_url. intros [_ Hp]%andb_true_iff.
  unfold passes in Hp. destruct (url_test r) as [b|e]; congruence.
Qed.

Lemma remove_generic_urls_fixed (kept : list pyobj) :
  Forall (λ r, keeps r = true) kept → Utils.remove_generic_urls kept = Ok kept.
Proof.
  intros Hall. rewrite remove_generic_urls_eq.
  assert (filter (λ r, has_url r) kept = kept) as ->.
  { induction Hall as [|r l Hr _ IH]; [done|].
    rewrite filter_bool_cons, IH. rewrite keeps_has_url in Hr.
    by apply andb_true_iff in Hr as [-> _]. }
  apply filter_m_fixed. eapply Forall_impl; [done|]. apply keeps_url_test.
Qed.

End remove_generic_urls.

Lemma url_parses_singleton `{PyLib} (s : string) (b : bool) :
  Utils.path_not_generic (VStr s) = Ok b →
  url_parses (Some {[ "url" := VStr s ]}).
Proof.
  intros Hb d v [= <-] Hv. apply lookup_singleton_Some in Hv as [_ <-]. eauto.
Qed.

Lemma url_parses_None `{PyLib} : url_parses None.
Proof. intros d v Hd. discriminate Hd. Qed.

(** C7.  [remove_generic_urls] keeps a record exactly when it is present, has
    a [url] field and the path of its url is neither [/news/] nor [/news]:
    whenever it returns, its result is the input filtered by [keeps], hence a
    sublist of the input in the input's order; it returns whenever
    [urlparse] returns on every url of the input; and on the list of the
    scenario it returns the one release. *)
Theorem remove_generic_urls_keeps `{PyLib} :
  (∀ results kept, Utils.remove_generic_urls results = Ok kept →
     kept = filter (λ r, keeps r) results
     ∧ kept `sublist_of` results
     ∧ ∀ r, r ∈ kept ↔ r ∈ results ∧ keeps r = true)
  ∧ (∀ results, Forall url_parses results →
       Utils.remove_generic_urls results = Ok (filter (λ r, keeps r) results))
  ∧ Utils.remove_generic_urls [news_index; release_9; None] = Ok [release_9].
Proof.
  split; [|split].
  - intros results kept ->%remove_generic_urls_Ok. split; [done|]. split.
    + apply sublist_filter.
    + intros r. rewrite list_elem_of_filter, Is_true_true. tauto.
  - apply remove_generic_urls_returns.
  - vm_compute. reflexivity.
Qed.

Lemma remove_generic_urls_keeps_witness :
  Forall (@url_parses RefLib.lib) [news_index; release_9; None]
  ∧ @Utils.remove_generic_urls RefLib.lib [news_index; release_9; None]
    = Ok (filter (λ r, @keeps RefLib.lib r) [news_index; release_9; None]).
Proof.
  assert (Forall (@url_parses RefLib.lib) [news_index; release_9; None]) as Hall.
  { constructor; [|constructor; [|constructor; [|constructor]]].
    - apply (url_parses_singleton _ false). vm_compute. reflexivity.
    - apply (url_parses_singleton _ true). vm_compute. reflexivity.
    - apply url_parses_None. }
  split; [exact Hall|].
  exact (proj1 (proj2 (@remove_generic_urls_keeps RefLib.lib)) _ Hall).
Defined.

(** C6.  [remove_generic_urls] is idempotent: a list it returns is returned
    unchanged when filtered again, and filtering twice is filtering once also
    where the first pass raises. *)
Theorem remove_generic_urls_idempotent `{PyLib} (x : list pyobj) :
  (∀ y, Utils.remove_generic_urls x = Ok y → Utils.remove_generic_urls y = Ok y)
  ∧ Utils.remove_generic_urls x ≫= Utils.remove_generic_urls
    = Utils.remove_generic_urls x.
Proof.
  assert (∀ y, Utils.remove_generic_urls x = Ok y →
            Utils.remove_generic_urls y = Ok y) as Hfix.
  { intros y ->%remove_generic_urls_Ok. apply remove_generic_urls_fixed.
    apply Forall_forall. intros r [Hr _]%list_elem_of_filter.
    by apply Is_true_true. }
  split; [exact Hfix|].
  destruct (Utils.remove_generic_urls x) as [y|e] eqn:Hx; simpl; [|done].
  by apply Hfix.
Qed.

Lemma remove_generic_urls_idempotent_witness :
  @Utils.remove_generic_urls RefLib.lib [news_index; release_9; None; Some ∅]
    = Ok [release_9]
  ∧ @Utils.remove_generic_urls RefLib.lib [release_9] = Ok [release_9].
Proof.
  assert (@Utils.remove_generic_urls RefLib.lib
            [news_index; release_9; None; Some ∅] = Ok [release_9]) as Hx
    by (vm_compute; reflexivity).
  split; [exact Hx|].
  exact (proj1 (@remove_generic_urls_idempotent RefLib.lib _) _ Hx).
Defined.

(** ** [Scraper.meeks] *)
Section meeks.
Context `{PyLib}.

Lemma meeks_loop_omap (url : string) (rows : list node) (results : list pyobj) :
  Scraper.meeks_loop url rows results
  = results ++ omap (Scraper.meeks_row url) rows.
Proof.
  revert results. induction rows as [|row rows IH]; intros results; simpl.
  - by rewrite app_nil_r.
  - csimpl. destruct (Scraper.meeks_row url row) as [r|]; rewrite IH; [|done].
    by rewrite <- app_assoc.
Qed.

Lemma length_omap_le {A B} (f : A → option B) (l : list A) :
  (length (omap f l) ≤ length l)%nat.
Proof.
  induction l as [|x l IH]; csimpl; [lia|]. destruct (f x); csimpl; lia.
Qed.

End meeks.

(** C10.  [Scraper.meeks] returns at most ten records: it builds them from
    the first ten [.views-row] containers of the page and from no other,
    however many the page has. *)
Theorem meeks_at_most_ten `{PyLib} (open_html : string → option node) (page : Z) :
  (length (Scraper.meeks open_html page) ≤ 10)%nat
  ∧ Scraper.meeks open_html page
    = match open_html (Scraper.meeks_url page) with
      | None => []
      | Some doc =>
          omap (Scraper.meeks_row (Scraper.meeks_url page))
            (take 10 (select_class "views-row" doc))
      end.
Proof.
  assert (Scraper.meeks open_html page
    = match open_html (Scraper.meeks_url page) with
      | None => []
      | Some doc =>
          omap (Scraper.meeks_row (Scraper.meeks_url page))
            (take 10 (select_class "views-row" doc))
      end) as Heq.
  { unfold Scraper.meeks. destruct (open_html _); [|done].
    by rewrite meeks_loop_omap. }
  split; [|exact Heq]. rewrite Heq. destruct (open_html _) as [doc|]; simpl; [|lia].
  etrans; [apply length_omap_le|]. rewrite length_take. apply Nat.le_min_l.
Qed.

(** A page of twelve rows yields ten records, a page of three yields three. *)
Example meeks_twelve_rows :
  length (select_class "views-row" (meeks_page 12)) = 12%nat
  ∧ length (@Scraper.meeks RefLib.lib (λ _, Some (meeks_page 12)) 0) = 10%nat
  ∧ length (@Scraper.meeks RefLib.lib (λ _, Some (meeks_page 3)) 0) = 3%nat.
Proof. vm_compute. done. Qed.

(** ** [Feed.date_from_rss_item] *)
Section date_from_rss_item.
Context `{PyLib}.

Lemma first_found_guarded (catch : list exn) (attempt rest : result (option date))
    (steps : list step) :
  attempt ≠ Ok None →
  rest = first_found steps →
  try_except attempt catch rest = first_found (guarded catch attempt :: steps).
Proof.
  intros Hsome ->. destruct attempt as [[d|]|e]; simpl; [done|done|].
  by destruct (bool_decide (e ∈ catch)).
Qed.

Lemma parse_not_None (t : string) : Some <$> dateutil_parse t ≠ Ok None.
Proof. by destruct (dateutil_parse t). Qed.

Lemma date_from_link_not_None (t : string) : Feed.date_from_link t ≠ Ok None.
Proof.
  unfold Feed.date_from_link.
  destruct (index_last _); simpl; [|done].
  destruct (index_first _); simpl; [|done].
  apply parse_not_None.
Qed.

Lemma contains_empty (sub : string) :
  sub ≠ EmptyString → PyStr.contains sub "" = false.
Proof. by destruct sub. Qed.

(** The [link] branch of the source is the link step. *)
Lemma link_branch (item : node) :
  match find "link" item with
  | Some link =>
      if negb (String.eqb (text link) "")
         && PyStr.contains "mikulski.senate.gov" (text link)
         && PyStr.contains "-2014" (text link)
      then try_except (Feed.date_from_link (text link)) [ValueError; IndexError]
             (Ok None)
      else Ok None
  | None => Ok None
  end = first_found [link_step item].
Proof.
  unfold link_step, link_matches, text_or_empty.
  destruct (find "link" item) as [link|]; [|done].
  destruct (String.eqb (text link) "") eqn:He; simpl.
  - apply String.eqb_eq in He. by rewrite He.
  - destruct (PyStr.contains "mikulski.senate.gov" (text link)); [|done].
    destruct (PyStr.contains "-2014" (text link)); [|done]. simpl.
    exact (first_found_guarded _ _ _ [] (date_from_link_not_None _) eq_refl).
Qed.

(** An element branch of the source is the element step followed by the
    rest of the chain. *)
Lemma element_branch (nm : string) (item : node) (rest : result (option date))
    (steps : list step) :
  rest = first_found steps →
  match find nm item with
  | Some pub_date =>
      if negb (String.eqb (text pub_date) "")
      then try_except (Some <$> dateutil_parse (text pub_date))
             [ValueError; TypeError] rest
      else rest
  | None => rest
  end = first_found (element_step nm item :: steps).
Proof.
  intros Hrest. unfold element_step.
  destruct (find nm item) as [t|]; [|done].
  destruct (String.eqb (text t) ""); simpl; [done|].
  exact (first_found_guarded _ _ _ steps (parse_not_None _) Hrest).
Qed.

End date_from_rss_item.



(** The chain at work: a date in [pubDate] wins, an unreadable [pubDate]
    falls back to [pubdate], and a Mikulski link supplies its own date. *)
Example date_from_rss_item_examples :
  @Feed.date_from_rss_item RefLib.lib
    (el "item" [txt "pubDate" "Mon, 01 Jan 2024 00:00:00 GMT";
                txt "pubdate" "Tue, 02 Jan 2024 00:00:00 GMT"])
    = Ok (Some (Date 2024 1 1))
  ∧ @Feed.date_from_rss_item RefLib.lib
      (el "item" [el "pubDate" []; txt "pubdate" "Tue, 02 Jan 2024 00:00:00 GMT"])
    = Ok (Some (Date 2024 1 2))
  ∧ @Feed.date_from_rss_item RefLib.lib mikulski_item = Ok (Some (Date 2014 1 15)).
Proof. vm_compute. done. Qed.

(** ** [Feed.batch] *)
Section batch.
Context `{PyLib}.
Variable open_rss : string → option node.

Lemma batch_loop_eq (urls : list string) (results : list pyobj)
    (failures : list string) :
  Feed.batch_loop open_rss urls results failures
  = (results ++ (urls ≫= λ u, records_of (Feed.from_rss open_rss u)),
     failures ++ filter (λ u, unusable open_rss u) urls).
Proof.
  revert results failures.
  induction urls as [|u urls IH]; intros results failures; csimpl.
  - by rewrite !app_nil_r.
  - rewrite filter_bool_cons. unfold unusable at 1.
    destruct (Feed.from_rss open_rss u) as [[|r rs]|e]; rewrite IH; csimpl.
    + by rewrite <- app_assoc.
    + by rewrite <- app_assoc.
    + by rewrite <- app_assoc.
Qed.

Lemma fetch_failed_unusable (u : string) :
  fetch_failed open_rss u = true → unusable open_rss u = true.
Proof.
  unfold fetch_failed, unusable, Feed.from_rss.
  by destruct (open_rss u).
Qed.

Lemma fetch_failed_no_records (u : string) :
  fetch_failed open_rss u = true → records_of (Feed.from_rss open_rss u) = [].
Proof.
  unfold fetch_failed, Feed.from_rss. by destruct (open_rss u).
Qed.

Lemma length_filter_mono {A} (f g : A → bool) (l : list A) :
  (∀ x, f x = true → g x = true) →
  (length (filter (λ x, f x) l) ≤ length (filter (λ x, g x) l))%nat.
Proof.
  intros Hfg. induction l as [|x l IH]; [done|].
  rewrite !filter_bool_cons. destruct (f x) eqn:Hf.
  - rewrite (Hfg _ Hf). simpl. lia.
  - destruct (g x); simpl; lia.
Qed.

End batch.

(** C1, amended.  [Feed.batch] returns a pair for every list of URLs.  Its
    failures are, in order, the URLs for which [from_rss] raised or returned
    no record: every URL whose fetch failed and every URL whose processing
    raised is among them, so they are at least as many as the failed
    fetches.  Its successes are the records of the URLs, in the order of the
    URLs, and each comes from a URL that was fetched. *)
Theorem batch_partition `{PyLib} (open_rss : string → option node)
    (urls : list string) :
  Feed.batch open_rss urls
  = (urls ≫= (λ u, records_of (Feed.from_rss open_rss u)),
     filter (λ u, unusable open_rss u) urls)
  ∧ (∀ u, u ∈ urls →
       fetch_failed open_rss u = true ∨ (∃ e, Feed.from_rss open_rss u = Raise e) →
       u ∈ (Feed.batch open_rss urls).2)
  ∧ (length (filter (λ u, fetch_failed open_rss u) urls)
       ≤ length (Feed.batch open_rss urls).2)%nat
  ∧ (∀ r, r ∈ (Feed.batch open_rss urls).1 →
       ∃ u rs, u ∈ urls ∧ fetch_failed open_rss u = false
               ∧ Feed.from_rss open_rss u = Ok rs ∧ r ∈ rs).
Proof.
  assert (Feed.batch open_rss urls
    = (urls ≫= (λ u, records_of (Feed.from_rss open_rss u)),
       filter (λ u, unusable open_rss u) urls)) as Heq.
  { unfold Feed.batch. by rewrite batch_loop_eq. }
  split; [exact Heq|]. rewrite Heq. simpl. split; [|split].
  - intros u Hu Hfail. apply list_elem_of_filter. split; [|done].
    apply Is_true_true. destruct Hfail as [Hf|[e He]].
    + by apply fetch_failed_unusable.
    + unfold unusable. by rewrite He.
  - apply length_filter_mono, fetch_failed_unusable.
  - intros r (u & Hr & Hu)%list_elem_of_bind.
    destruct (Feed.from_rss open_rss u) as [rs|e] eqn:Hrs; simpl in Hr.
    + exists u, rs. split; [done|]. split; [|done].
      destruct (fetch_failed open_rss u) eqn:Hf; [|done].
      apply fetch_failed_no_records in Hf. rewrite Hrs in Hf. simpl in Hf.
      subst rs. by apply elem_of_nil in Hr.
    + by apply elem_of_nil in Hr.
Qed.

Lemma batch_partition_witness :
  "http://y.gov/rss" ∈ ["http://x.gov/rss"; "http://y.gov/rss"; "http://z.gov/rss"]
  ∧ fetch_failed three_feeds "http://y.gov/rss" = true
  ∧ "http://y.gov/rss"
      ∈ (@Feed.batch RefLib.lib three_feeds
           ["http://x.gov/rss"; "http://y.gov/rss"; "http://z.gov/rss"]).2.
Proof.
  assert ("http://y.gov/rss"
          ∈ ["http://x.gov/rss"; "http://y.gov/rss"; "http://z.gov/rss"]) as Hin
    by (apply list_elem_of_further, list_elem_of_here).
  split; [exact Hin|]. split; [reflexivity|].
  apply (proj1 (proj2 (@batch_partition RefLib.lib three_feeds _)) _ Hin).
  left. reflexivity.
Defined.

(** C1, as stated, fails: of three feeds exactly one fails to fetch, yet
    [batch] reports two failures, the second being the feed that was served
    with no item. *)
Lemma batch_counts_empty_feed_as_failure :
  filter (λ u, fetch_failed three_feeds u)
    ["http://x.gov/rss"; "http://y.gov/rss"; "http://z.gov/rss"]
  = ["http://y.gov/rss"]
  ∧ (@Feed.batch RefLib.lib three_feeds
       ["http://x.gov/rss"; "http://y.gov/rss"; "http://z.gov/rss"]).2
    = ["http://y.gov/rss"; "http://z.gov/rss"]
  ∧ ¬ (∀ (L : PyLib) (open_rss : string → option node) (urls : list string),
         length (@Feed.batch L open_rss urls).2
         = length (filter (λ u, fetch_failed open_rss u) urls)).
Proof.
  split; [by vm_compute|]. split; [by vm_compute|].
  intros Hclaim.
  specialize (Hclaim RefLib.lib three_feeds
    ["http://x.gov/rss"; "http://y.gov/rss"; "http://z.gov/rss"]).
  vm_compute in Hclaim. discriminate Hclaim.
Qed.

(** ** The loop [for_each] *)
Lemma for_each_acc {A} (body : A → result (option pyobj)) (xs : list A)
    (acc : list pyobj) :
  for_each body xs acc = (λ rs, acc ++ rs) <$> for_each body xs [].
Proof.
  revert acc. induction xs as [|x xs IH]; intros acc; simpl.
  - by rewrite app_nil_r.
  - destruct (body x) as [[r|]|e]; simpl; [|done|done].
    rewrite (IH (acc ++ [r])), (IH [r]).
    destruct (for_each body xs []) as [rs|e]; simpl; [|done].
    by rewrite <- app_assoc.
Qed.

Lemma for_each_Forall2 {A} (body : A → result (option pyobj)) (sel : A → bool)
    (xs : list A) (rs : list pyobj) :
  (∀ x o, body x = Ok o → sel x = true ↔ is_Some o) →
  for_each body xs [] = Ok rs →
  Forall2 (λ x r, body x = Ok (Some r)) (filter (λ x, sel x) xs) rs.
Proof.
  intros Hsel. revert rs. induction xs as [|x xs IH]; intros rs Hrs; simpl in Hrs.
  - inversion Hrs. constructor.
  - apply bind_Ok in Hrs as (o & Ho & Hrs). rewrite filter_bool_cons.
    destruct o as [r|].
    + rewrite (proj2 (Hsel _ _ Ho)) by eauto.
      rewrite for_each_acc in Hrs.
      destruct (for_each body xs []) as [rs'|e]; simpl in Hrs; [|done].
      inversion Hrs. constructor; [done|]. by apply IH.
    + destruct (sel x) eqn:Hx; [|by apply IH].
      apply (Hsel _ _ Ho) in Hx. by destruct Hx.
Qed.

Lemma Forall2_elem_of_r {A B} (R : A → B → Prop) (l : list A) (k : list B) (y : B) :
  Forall2 R l k → y ∈ k → ∃ x, x ∈ l ∧ R x y.
Proof.
  induction 1 as [|x y' l k HR _ IH]; intros Hy.
  - by apply elem_of_nil in Hy.
  - apply elem_of_cons in Hy as [->|Hy].
    + exists x. split; [apply list_elem_of_here|done].
    + destruct (IH Hy) as (x' & Hx' & HR'). exists x'.
      split; [by apply list_elem_of_further|done].
Qed.

(** ** Records *)
Lemma getitem_record (source url title date domain : value) :
  getitem (record source url title date domain) "source" = Ok source
  ∧ getitem (record source url title date domain) "url" = Ok url
  ∧ getitem (record source url title date domain) "title" = Ok title
  ∧ getitem (record source url title date domain) "date" = Ok date
  ∧ getitem (record source url title date domain) "domain" = Ok domain.
Proof. repeat split; reflexivity. Qed.

(** ** [Scraper.crapo] and [Feed.parse_atom] *)
Section adapters.
Context `{PyLib}.

Lemma crapo_loop_omap (url : string) (blocks : list node) (results : list pyobj) :
  Scraper.crapo_loop url blocks results
  = results ++ omap (Scraper.crapo_block url) blocks.
Proof.
  revert results. induction blocks as [|b blocks IH]; intros results; csimpl.
  - by rewrite app_nil_r.
  - destruct (Scraper.crapo_block url b) as [r|]; rewrite IH; [|done].
    by rewrite <- app_assoc.
Qed.

Lemma atom_entry_link (url : string) (entry : node) (o : option pyobj) :
  Feed.atom_entry url entry = Ok o → has_link entry = true ↔ is_Some o.
Proof.
  unfold Feed.atom_entry, has_link. destruct (find "link" entry) as [link|].
  - intros (d & _ & Ho)%bind_Ok. apply bind_Ok in Ho as (u & _ & Ho).
    inversion Ho. split; eauto.
  - intros [= <-]. split; [done|]. by intros [? ?].
Qed.

Lemma atom_entry_record (url : string) (entry : node) (r : pyobj) :
  Feed.atom_entry url entry = Ok (Some r) →
  ∃ link u, find "link" entry = Some link
    ∧ getitem r "url" = Ok (of_str (get "href" link))
    ∧ Urllib.urlparse url = Ok u
    ∧ getitem r "domain" = Ok (VStr (Urllib.netloc u)).
Proof.
  unfold Feed.atom_entry. destruct (find "link" entry) as [link|]; [|done].
  intros (d & _ & Hr)%bind_Ok. apply bind_Ok in Hr as (u & Hu & Hr).
  inversion Hr. exists link, u. repeat split; try done; apply getitem_record.
Qed.

Lemma atom_entry_raises (url : string) (entry link p : node) :
  find "link" entry = Some link →
  find "published" entry = Some p
  ∨ (find "published" entry = None ∧ find "updated" entry = Some p) →
  strptime (text p) Feed.atom_format = None →
  Feed.atom_entry url entry = Raise ValueError.
Proof.
  intros Hl Hp Hs. unfold Feed.atom_entry. rewrite Hl.
  destruct Hp as [->|[-> ->]]; by rewrite Hs.
Qed.

Lemma parse_atom_eq (doc : node) (url : string) :
  Feed.parse_atom doc url
  = for_each (Feed.atom_entry url) (find_all "entry" doc) [].
Proof. unfold Feed.parse_atom. by destruct (find_all "entry" doc). Qed.

Lemma parse_rss_eq (doc : node) (url : string) :
  Feed.parse_rss doc url
  = for_each (Feed.rss_item url) (find_all "item" doc) []
    ≫= Utils.remove_generic_urls.
Proof. unfold Feed.parse_rss. by destruct (find_all "item" doc). Qed.

Lemma rss_item_link (url : string) (item : node) (o : option pyobj) :
  Feed.rss_item url item = Ok o → has_link item = true ↔ is_Some o.
Proof.
  unfold Feed.rss_item, has_link. destruct (find "link" item) as [link|].
  - intros (a & _ & Ho)%bind_Ok. apply bind_Ok in Ho as (d & _ & Ho).
    apply bind_Ok in Ho as (u & _ & Ho). inversion Ho. split; eauto.
  - intros [= <-]. split; [done|]. by intros [? ?].
Qed.

Lemma rss_item_title (url : string) (item : node) (r : pyobj) :
  Feed.rss_item url item = Ok (Some r) →
  getitem r "title" = Ok (VStr (text_or_empty "title" item)).
Proof.
  unfold Feed.rss_item. destruct (find "link" item) as [link|]; [|done].
  intros (a & _ & Ho)%bind_Ok. apply bind_Ok in Ho as (d & _ & Ho).
  apply bind_Ok in Ho as (u & _ & Ho). inversion Ho. apply getitem_record.
Qed.

Lemma rss_item_record (url : string) (item link : node) (abs_link : string)
    (d : option date) (u : Urllib.ParseResult) :
  find "link" item = Some link →
  Utils.absolute_link url (text link) = Ok abs_link →
  String.eqb url Feed.burr_feed = false →
  String.eqb url Feed.johanns_feed = false →
  Feed.date_from_rss_item item = Ok d →
  Urllib.urlparse url = Ok u →
  Feed.rss_item url item
  = Ok (Some (record (VStr url) (VStr abs_link)
                (VStr (text_or_empty "title" item)) (of_date d)
                (VStr (Urllib.netloc u)))).
Proof.
  intros Hl Ha Hb Hj Hd Hu. unfold Feed.rss_item.
  rewrite Hl, Ha. simpl. rewrite Hb, Hj, Hd. simpl. by rewrite Hu.
Qed.

End adapters.




(** The domain of a feed record is the host of the feed, whatever the host
    of the record's url. *)
Example parse_atom_domain_of_feed :
  @Feed.parse_atom RefLib.lib atom_news "http://feeds.example.org/x.atom"
  = Ok [record (VStr "http://feeds.example.org/x.atom")
          (VStr "http://x.gov/news/") (VStr "News") VNone
          (VStr "feeds.example.org")].
Proof. vm_compute. reflexivity. Qed.

Lemma atom_bad_date_raises `{PyLib} (url : string) :
  strptime "January 1, 2024" Feed.atom_format = None →
  Feed.parse_atom atom_bad_date url = Raise ValueError.
Proof.
  intros Hs. rewrite parse_atom_eq.
  change (find_all "entry" atom_bad_date)
    with [el "entry"
            [Tag "link" {[ "href" := "http://x.gov/release/9" ]} [];
             txt "title" "Release"; txt "published" "January 1, 2024"]].
  simpl.
  rewrite (atom_entry_raises url _
             (Tag "link" {[ "href" := "http://x.gov/release/9" ]} [])
             (txt "published" "January 1, 2024")); [done|done| |done].
  by left.
Qed.

(** C3.  [Feed.parse_atom] raises [ValueError] on an entry whose
    [published] text [strptime] does not read under the ISO format: the
    exception of [strptime] is not caught. *)
Theorem parse_atom_raises_on_unread_date `{PyLib} (url : string) :
  strptime "January 1, 2024" Feed.atom_format = None →
  Feed.parse_atom atom_bad_date url = Raise ValueError.
Proof. apply atom_bad_date_raises. Qed.

Lemma parse_atom_raises_on_unread_date_witness :
  @strptime RefLib.lib "January 1, 2024" Feed.atom_format = None
  ∧ @Feed.parse_atom RefLib.lib atom_bad_date "http://x.gov/atom"
    = Raise ValueError.
Proof.
  split; [reflexivity|].
  apply (@parse_atom_raises_on_unread_date RefLib.lib). reflexivity.
Defined.

(** The RSS branch reads the same text as an unknown date, and [batch]
    records the Atom feed as a failure. *)
Example unread_date_rss_and_batch `{PyLib} :
  dateutil_parse "January 1, 2024" = Raise ValueError →
  strptime "January 1, 2024" Feed.atom_format = None →
  Feed.date_from_rss_item (el "item" [txt "pubDate" "January 1, 2024"]) = Ok None
  ∧ Feed.batch (λ _, Some atom_bad_date) ["http://x.gov/atom"]
    = ([], ["http://x.gov/atom"]).
Proof.
  intros Hd Hs. split.
  - vm_compute. vm_compute in Hd. by rewrite Hd.
  - unfold Feed.batch, Feed.batch_loop, Feed.from_rss.
    change (find "feed" atom_bad_date) with (Some (el "feed"
       [el "entry"
          [Tag "link" {[ "href" := "http://x.gov/release/9" ]} [];
           txt "title" "Release"; txt "published" "January 1, 2024"]])).
    by rewrite atom_bad_date_raises.
Qed.

(** C4.  The Atom branch of [Feed.from_rss] returns its records without
    passing them through [remove_generic_urls]: a record whose url is the
    news index is returned, although the filter drops it, as the RSS branch
    does for an item with that link. *)
Theorem from_rss_atom_not_filtered `{PyLib} :
  Feed.from_rss (λ _, Some atom_news) "http://x.gov/atom" = Ok [atom_news_record]
  ∧ Utils.remove_generic_urls [atom_news_record] = Ok []
  ∧ Feed.from_rss (λ _, Some rss_news_link) "http://x.gov/rss" = Ok [].
Proof. repeat split; vm_compute; reflexivity. Qed.

(** C8, amended.  [Feed.parse_rss] builds one record for each item that has
    a [link] element and for no other, in the order of the items, with the
    text of the [title] element as title and the empty string when the item
    has none; what it returns is that list passed through
    [remove_generic_urls].  For the item of the scenario, in a feed served
    from [x.gov], that is the one record with title [""], date 2024-01-01
    and domain [x.gov]. *)
Theorem parse_rss_items `{PyLib} :
  (∀ (doc : node) (url : string) (rs : list pyobj),
     Feed.parse_rss doc url = Ok rs →
     ∃ extracted,
       Forall2
         (λ item r,
            Feed.rss_item url item = Ok (Some r)
            ∧ getitem r "title" = Ok (VStr (text_or_empty "title" item))
            ∧ (find "title" item = None → getitem r "title" = Ok (VStr "")))
         (filter (λ item, has_link item) (find_all "item" doc)) extracted
       ∧ Utils.remove_generic_urls extracted = Ok rs)
  ∧ (dateutil_parse "Mon, 01 Jan 2024 00:00:00 GMT" = Ok (Date 2024 1 1) →
     Feed.parse_rss rss_scenario "http://x.gov/rss" = Ok [rss_scenario_record]).
Proof.
  split.
  - intros doc url rs Hrs. rewrite parse_rss_eq in Hrs.
    apply bind_Ok in Hrs as (extracted & Hex & Hrs). exists extracted.
    split; [|done].
    apply (for_each_Forall2 _ has_link) in Hex; [|apply rss_item_link].
    eapply Forall2_impl; [exact Hex|]. intros item r Hbody.
    pose proof (rss_item_title _ _ _ Hbody) as Htitle.
    split; [done|]. split; [done|].
    intros Hnone. rewrite Htitle. unfold text_or_empty. by rewrite Hnone.
  - intros Hd. rewrite parse_rss_eq.
    change (find_all "item" rss_scenario) with [scenario_item].
    assert (Feed.date_from_rss_item scenario_item = Ok (Some (Date 2024 1 1)))
      as Hdate by (vm_compute; vm_compute in Hd; by rewrite Hd).
    assert (Feed.rss_item "http://x.gov/rss" scenario_item
            = Ok (Some rss_scenario_record)) as Hitem.
    { by rewrite (rss_item_record _ _ (txt "link" "http://x.gov/a")
                    "http://x.gov/a" (Some (Date 2024 1 1))
                    (Urllib.mkParse "http" "x.gov" "/rss" "" "" "")). }
    simpl. rewrite Hitem. vm_compute. reflexivity.
Qed.

Lemma parse_rss_items_witness :
  @dateutil_parse RefLib.lib "Mon, 01 Jan 2024 00:00:00 GMT" = Ok (Date 2024 1 1)
  ∧ @Feed.parse_rss RefLib.lib rss_scenario "http://x.gov/rss"
    = Ok [rss_scenario_record].
Proof.
  split; [reflexivity|].
  apply (proj2 (@parse_rss_items RefLib.lib)). reflexivity.
Defined.

(** C8, as stated, fails: the only item of the feed has a [link] element,
    and [parse_rss] returns no record for it. *)
Lemma parse_rss_drops_item_with_link :
  find_all "item" rss_news_link = [news_item]
  ∧ has_link news_item = true
  ∧ @Feed.parse_rss RefLib.lib rss_news_link "http://x.gov/rss" = Ok [].
Proof. repeat split; vm_compute; reflexivity. Qed.

(** The domain of the scenario's record is the host of the feed, not of the
    link. *)
Example parse_rss_domain_of_feed :
  @Feed.parse_rss RefLib.lib rss_scenario "http://feeds.example.org/x.rss"
  = Ok [record (VStr "http://feeds.example.org/x.rss") (VStr "http://x.gov/a")
          (VStr "") (VDate (Date 2024 1 1)) (VStr "feeds.example.org")].
Proof. vm_compute. reflexivity. Qed.

(** ** [Utils.absolute_link] *)
Section absolute_link.
Context `{PyLib}.

Lemma urlsplit_scheme (url0 scheme0 : string) (r : Urllib.SplitResult) :
  Urllib.urlsplit url0 scheme0 = Ok r →
  Urllib.split_scheme r
  = (Urllib.split_off_scheme
       (Urllib.unsafe_removed (PyStr.lstrip Urllib.c0_control_or_space url0))
       (Urllib.unsafe_removed
          (PyStr.rstrip Urllib.c0_control_or_space
             (PyStr.lstrip Urllib.c0_control_or_space scheme0)))).1.
Proof.
  unfold Urllib.urlsplit.
  destruct (Urllib.split_off_scheme _ _) as [scheme url]. simpl.
  intros ([netloc url'] & _ & Hr)%bind_Ok.
  destruct (PyStr.partition "#" url') as [[b1 f1] a1].
  destruct (PyStr.partition "?" b1) as [[b2 f2] a2].
  destruct (_ || _); [|done]. by inversion Hr.
Qed.

Lemma urlparse_scheme (url : string) (p : Urllib.ParseResult) :
  Urllib.urlparse url = Ok p →
  Urllib.scheme p
  = (Urllib.split_off_scheme
       (Urllib.unsafe_removed (PyStr.lstrip Urllib.c0_control_or_space url))
       "").1.
Proof.
  unfold Urllib.urlparse, Urllib.urlparse_with.
  intros (r & Hr & Hp)%bind_Ok. apply urlsplit_scheme in Hr.
  destruct (_ && _); [destruct (Urllib.splitparams _)|]; by inversion Hp.
Qed.

Lemma http_scheme (rest : string) (p : Urllib.ParseResult) :
  Urllib.urlparse ("http://" +:+ rest) = Ok p → Urllib.scheme p = "http".
Proof. intros ->%urlparse_scheme. reflexivity. Qed.

Lemma https_scheme (rest : string) (p : Urllib.ParseResult) :
  Urllib.urlparse ("https://" +:+ rest) = Ok p → Urllib.scheme p = "https".
Proof. intros ->%urlparse_scheme. reflexivity. Qed.

Lemma urlsplit_raises (url scheme : string) (e : exn) :
  Urllib.urlsplit url scheme = Raise e → e = ValueError.
Proof.
  unfold Urllib.urlsplit.
  destruct (Urllib.split_off_scheme _ _) as [sch rest].
  unfold Urllib.split_off_netloc.
  destruct (String.eqb (PyStr.take 2 rest) "//").
  - destruct (Urllib.splitnetloc rest) as [netloc rest'].
    destruct (_ || _); simpl; [congruence|].
    destruct (_ && _); simpl; [congruence|].
    destruct (PyStr.partition "#" rest') as [[b1 f1] a1].
    destruct (PyStr.partition "?" b1) as [[b2 f2] a2].
    destruct (_ || _); congruence.
  - simpl. destruct (PyStr.partition "#" rest) as [[b1 f1] a1].
    destruct (PyStr.partition "?" b1) as [[b2 f2] a2].
    simpl. discriminate.
Qed.

Lemma urlparse_with_raises (url scheme : string) (e : exn) :
  Urllib.urlparse_with url scheme = Raise e → e = ValueError.
Proof.
  unfold Urllib.urlparse_with.
  destruct (Urllib.urlsplit url scheme) as [r|e'] eqn:Hr; simpl.
  - destruct (_ && _); [destruct (Urllib.splitparams _)|]; discriminate.
  - intros [= <-]. by apply urlsplit_raises in Hr.
Qed.

Lemma urljoin_raises (base url : string) (e : exn) :
  Urllib.urljoin base url = Raise e → e = ValueError.
Proof.
  unfold Urllib.urljoin.
  destruct (String.eqb base ""); [discriminate|].
  destruct (String.eqb url ""); [discriminate|].
  destruct (Urllib.urlparse_with base "") as [b|e'] eqn:Hb; simpl.
  - destruct (Urllib.urlparse_with url _) as [u|e''] eqn:Hu; simpl.
    + repeat (case_match; try discriminate).
    + intros [= <-]. by apply urlparse_with_raises in Hu.
  - intros [= <-]. by apply urlparse_with_raises in Hb.
Qed.

End absolute_link.

(** ** Strings under [urlsplit] *)
Lemma append_cons (a : ascii) (s t : string) : String a s +:+ t = String a (s +:+ t).
Proof. reflexivity. Qed.

Lemma append_assoc (a b c : string) : (a +:+ b) +:+ c = a +:+ (b +:+ c).
Proof. induction a as [|x a IH]; [done|]. rewrite !append_cons. by rewrite IH. Qed.

Lemma is_unsafe_false (x : ascii) :
  is_unsafe x = false → x ≠ "009"%char ∧ x ≠ "013"%char ∧ x ≠ "010"%char.
Proof.
  unfold is_unsafe. simpl. intros Hx.
  repeat split; intros ->; vm_compute in Hx; discriminate.
Qed.

Lemma unsafe_removed_cons (x : ascii) (s : string) :
  is_unsafe x = false →
  Urllib.unsafe_removed (String x s) = String x (Urllib.unsafe_removed s).
Proof.
  intros (H1 & H2 & H3)%is_unsafe_false. unfold Urllib.unsafe_removed. simpl.
  rewrite (bool_decide_eq_false_2 _ H1). simpl.
  rewrite (bool_decide_eq_false_2 _ H2). simpl.
  by rewrite (bool_decide_eq_false_2 _ H3).
Qed.

Lemma unsafe_removed_app (a b : string) :
  no_unsafe a = true →
  Urllib.unsafe_removed (a +:+ b) = a +:+ Urllib.unsafe_removed b.
Proof.
  induction a as [|x a IH]; [done|]. simpl.
  intros [Hx Ha]%andb_true_iff. apply negb_true_iff in Hx.
  rewrite !append_cons, unsafe_removed_cons by done. by rewrite IH.
Qed.

Lemma remove_no_char (c : ascii) (s : string) :
  PyStr.has_char c (PyStr.remove c s) = false.
Proof.
  induction s as [|x s IH]; [done|]. simpl.
  case_bool_decide as Hx; [done|]. simpl. rewrite IH.
  rewrite bool_decide_eq_false_2; done.
Qed.

Lemma remove_keeps_no_char (c d : ascii) (s : string) :
  PyStr.has_char d s = false → PyStr.has_char d (PyStr.remove c s) = false.
Proof.
  induction s as [|x s IH]; [done|]. simpl.
  intros [Hx Hs]%orb_false_iff. destruct (bool_decide (x = c)); [by apply IH|].
  simpl. by rewrite Hx, IH.
Qed.

Lemma no_unsafe_has_char (s : string) :
  no_unsafe s = true
  ↔ PyStr.has_char "009" s = false ∧ PyStr.has_char "013" s = false
    ∧ PyStr.has_char "010" s = false.
Proof.
  induction s as [|x s IH]; [done|]. unfold no_unsafe in *. simpl.
  rewrite andb_true_iff, IH, negb_true_iff. unfold is_unsafe. simpl.
  rewrite !orb_false_iff.
  assert (∀ c : ascii, bool_decide (c = x) = false ↔ bool_decide (x = c) = false) as Hsym.
  { intros c. rewrite !bool_decide_eq_false. split; congruence. }
  rewrite !Hsym. tauto.
Qed.

Lemma no_unsafe_removed (s : string) : no_unsafe (Urllib.unsafe_removed s) = true.
Proof.
  apply no_unsafe_has_char. unfold Urllib.unsafe_removed. repeat split.
  - do 2 apply remove_keeps_no_char. apply remove_no_char.
  - apply remove_keeps_no_char. apply remove_no_char.
  - apply remove_no_char.
Qed.

Lemma no_unsafe_drop (k : nat) (s : string) :
  no_unsafe s = true → no_unsafe (PyStr.drop k s) = true.
Proof.
  revert s. induction k as [|k IH]; intros [|x s]; simpl; try done.
  intros [_ Hs]%andb_true_iff. by apply IH.
Qed.

Lemma until_delim_facts (s n r : string) :
  Urllib.until_delim s = (n, r) →
  no_delim n = true ∧ (no_unsafe s = true → no_unsafe n = true).
Proof.
  revert n r. induction s as [|x s IH]; intros n r; cbn [Urllib.until_delim].
  - by intros [= <- <-].
  - destruct (PyStr.has_char x "/?#") eqn:Hx.
    + by intros [= <- <-].
    + destruct (Urllib.until_delim s) as [n' r'].
      intros [= <- <-]. destruct (IH _ _ eq_refl) as [Hd Hu]. split.
      * unfold no_delim in *. cbn [PyStr.all_chars]. unfold is_delim at 1.
        by rewrite Hx.
      * unfold no_unsafe in *. cbn [PyStr.all_chars].
        intros [-> Hs]%andb_true_iff. by apply Hu.
Qed.

Lemma until_delim_app (n r : string) :
  no_delim n = true → tail_ok r → Urllib.until_delim (n +:+ r) = (n, r).
Proof.
  intros Hn Hr. induction n as [|x n IH].
  - destruct Hr as [->|(c & t & -> & Hc)]; [done|].
    change ("" +:+ String c t) with (String c t). cbn [Urllib.until_delim].
    unfold is_delim in Hc. by rewrite Hc.
  - unfold no_delim in Hn. cbn [PyStr.all_chars] in Hn.
    apply andb_true_iff in Hn as [Hx Hn].
    apply negb_true_iff in Hx. unfold is_delim in Hx.
    rewrite append_cons. cbn [Urllib.until_delim]. rewrite Hx. by rewrite IH.
Qed.

Lemma tail_ok_removed (r : string) : tail_ok r → tail_ok (Urllib.unsafe_removed r).
Proof.
  intros [->|(c & t & -> & Hc)]; [by left|]. right.
  exists c, (Urllib.unsafe_removed t). split; [|done].
  apply unsafe_removed_cons. unfold is_delim in Hc. simpl in Hc.
  repeat (apply orb_true_iff in Hc as [Hc|Hc];
          [apply bool_decide_eq_true in Hc as <-; reflexivity|]).
  done.
Qed.

Lemma tail_ok_app (r x : string) : tail_ok r → tail_ok x → tail_ok (r +:+ x).
Proof.
  intros [->|(c & t & -> & Hc)] Hx; [done|]. right.
  exists c, (t +:+ x). by rewrite append_cons.
Qed.

Lemma tail_ok_cons (c : ascii) (t : string) :
  is_delim c = true → tail_ok (String c t).
Proof. intros Hc. right. eauto. Qed.

(** ** What [urlunparse] writes, [urlparse] reads back *)
Section round_trip.
Context `{PyLib}.

Lemma urlparse_of_checked_parts (url sch rest host rest' : string) :
  Urllib.split_off_scheme
    (Urllib.unsafe_removed (PyStr.lstrip Urllib.c0_control_or_space url)) ""
  = (sch, rest) →
  Urllib.split_off_netloc rest = Ok (host, rest') →
  netloc_check host = true →
  ∃ p, Urllib.urlparse url = Ok p
       ∧ Urllib.scheme p = sch ∧ Urllib.netloc p = host.
Proof.
  intros Hs Hn Ha. unfold Urllib.urlparse, Urllib.urlparse_with, Urllib.urlsplit.
  change (Urllib.unsafe_removed
            (PyStr.rstrip Urllib.c0_control_or_space
               (PyStr.lstrip Urllib.c0_control_or_space ""))) with "".
  rewrite Hs, Hn. simpl.
  destruct (PyStr.partition "#" rest') as [[b1 f1] a1].
  destruct (PyStr.partition "?" b1) as [[b2 f2] a2].
  unfold netloc_check in Ha. rewrite Ha. simpl.
  destruct (_ && _); [destruct (Urllib.splitparams _)|]; eauto.
Qed.

Lemma split_off_netloc_app (n r : string) :
  no_delim n = true → tail_ok r → brackets_ok n = true →
  Urllib.split_off_netloc ("//" +:+ n +:+ r) = Ok (n, r).
Proof.
  intros Hn Hr Hb. unfold Urllib.split_off_netloc, Urllib.splitnetloc.
  change (PyStr.take 2 ("//" +:+ n +:+ r)) with "//".
  change (PyStr.drop 2 ("//" +:+ n +:+ r)) with (n +:+ r).
  change (String.eqb "//" "//") with true. cbv iota.
  rewrite until_delim_app by done.
  unfold brackets_ok in Hb. cbv zeta in Hb.
  apply andb_true_iff in Hb as [H1 H2]. apply negb_true_iff in H1, H2.
  by rewrite H1, H2.
Qed.

Lemma relative_scheme_prefix (sch x : string) :
  sch ∈ Urllib.uses_relative →
  PyStr.lstrip Urllib.c0_control_or_space (scheme_prefix sch +:+ "//" +:+ x)
  = scheme_prefix sch +:+ "//" +:+ x
  ∧ Urllib.unsafe_removed (scheme_prefix sch +:+ "//" +:+ x)
    = scheme_prefix sch +:+ "//" +:+ Urllib.unsafe_removed x
  ∧ Urllib.split_off_scheme (scheme_prefix sch +:+ "//" +:+ x) ""
    = (sch, "//" +:+ x).
Proof.
  unfold Urllib.uses_relative. intros Hin.
  repeat (apply elem_of_cons in Hin as [->|Hin]);
    try (by apply elem_of_nil in Hin);
    (split; [reflexivity|]);
    (split;
       [match goal with
        | |- Urllib.unsafe_removed (?p +:+ _ +:+ _) = _ =>
            exact (unsafe_removed_app (p +:+ "//") x eq_refl)
        end|]);
    try reflexivity.
  unfold Urllib.split_off_scheme.
  change (scheme_prefix "" +:+ "//" +:+ x) with (String "/" (String "/" x)).
  cbn [PyStr.find]. rewrite !bool_decide_eq_false_2 by done.
  destruct (PyStr.find ":" x) as [i|]; reflexivity.
Qed.

Lemma urlunsplit_shape (sch n url q f : string) :
  n ≠ "" →
  ∃ r, tail_ok r
       ∧ Urllib.urlunsplit sch n url q f = scheme_prefix sch +:+ "//" +:+ n +:+ r.
Proof.
  intros Hn. unfold Urllib.urlunsplit.
  apply String.eqb_neq in Hn. rewrite Hn. cbn [negb orb].
  set (url' := if negb (String.eqb url "") && negb (String.eqb (PyStr.take 1 url) "/")
               then "/" +:+ url else url).
  assert (tail_ok url') as Hurl.
  { subst url'. destruct url as [|c url]; [by left|].
    change (String.eqb (String c url) "") with false. cbn [negb andb].
    change (PyStr.take 1 (String c url)) with (String c "").
    destruct (String.eqb (String c "") "/") eqn:Hc; cbn [negb].
    - apply String.eqb_eq in Hc as [= ->]. by apply tail_ok_cons.
    - by apply tail_ok_cons. }
  clearbody url'.
  assert ((if String.eqb sch "" then "//" +:+ n +:+ url'
           else sch +:+ ":" +:+ "//" +:+ n +:+ url')
          = scheme_prefix sch +:+ "//" +:+ n +:+ url') as ->.
  { unfold scheme_prefix. destruct (String.eqb sch ""); [done|].
    by rewrite append_assoc. }
  destruct (String.eqb q ""), (String.eqb f "").
  - by exists url'.
  - exists (url' +:+ "#" +:+ f). split.
    + apply tail_ok_app; [done|]. by apply tail_ok_cons.
    + by rewrite !append_assoc.
  - exists (url' +:+ "?" +:+ q). split.
    + apply tail_ok_app; [done|]. by apply tail_ok_cons.
    + by rewrite !append_assoc.
  - exists ((url' +:+ "?" +:+ q) +:+ "#" +:+ f). split.
    + apply tail_ok_app; [|by apply tail_ok_cons].
      apply tail_ok_app; [done|]. by apply tail_ok_cons.
    + by rewrite !append_assoc.
Qed.

Lemma urlunsplit_parse_back (sch n url q f : string) :
  sch ∈ Urllib.uses_relative → n ≠ "" →
  no_delim n = true → no_unsafe n = true →
  brackets_ok n = true → netloc_check n = true →
  ∃ p, Urllib.urlparse (Urllib.urlunsplit sch n url q f) = Ok p
       ∧ Urllib.scheme p = sch ∧ Urllib.netloc p = n.
Proof.
  intros Hsch Hn Hd Hu Hb Hc.
  destruct (urlunsplit_shape sch n url q f Hn) as (r & Hr & ->).
  destruct (relative_scheme_prefix sch (n +:+ r) Hsch) as (Hl & Hus & _).
  destruct (relative_scheme_prefix sch (n +:+ Urllib.unsafe_removed r) Hsch)
    as (_ & _ & Hs).
  apply (urlparse_of_checked_parts _ sch
           ("//" +:+ n +:+ Urllib.unsafe_removed r) n (Urllib.unsafe_removed r)).
  - by rewrite Hl, Hus, unsafe_removed_app, Hs.
  - apply split_off_netloc_app; auto using tail_ok_removed.
  - done.
Qed.

Lemma split_off_scheme_rest (url scheme : string) :
  no_unsafe url = true →
  no_unsafe (Urllib.split_off_scheme url scheme).2 = true.
Proof.
  intros Hu. unfold Urllib.split_off_scheme.
  destruct (PyStr.find ":" url) as [[|i]|]; [done| |done].
  destruct url as [|a url]; [done|].
  destruct (_ && _); [|done]. by apply no_unsafe_drop.
Qed.

Lemma urlparse_netloc_facts (url scheme0 : string) (p : Urllib.ParseResult) :
  Urllib.urlparse_with url scheme0 = Ok p → Urllib.netloc p ≠ "" →
  no_delim (Urllib.netloc p) = true ∧ no_unsafe (Urllib.netloc p) = true
  ∧ brackets_ok (Urllib.netloc p) = true ∧ netloc_check (Urllib.netloc p) = true.
Proof.
  unfold Urllib.urlparse_with, Urllib.urlsplit.
  pose proof (split_off_scheme_rest
                (Urllib.unsafe_removed (PyStr.lstrip Urllib.c0_control_or_space url))
                (Urllib.unsafe_removed
                   (PyStr.rstrip Urllib.c0_control_or_space
                      (PyStr.lstrip Urllib.c0_control_or_space scheme0)))
                (no_unsafe_removed _)) as Hrest.
  destruct (Urllib.split_off_scheme _ _) as [sch rest]. simpl in Hrest.
  intros (r & Hr & Hp)%bind_Ok.
  apply bind_Ok in Hr as ([n rest'] & Hn & Hr).
  destruct (PyStr.partition "#" rest') as [[b1 f1] a1].
  destruct (PyStr.partition "?" b1) as [[b2 f2] a2].
  destruct (_ || _) eqn:Hc in Hr; [|done]. injection Hr as <-.
  assert (Urllib.netloc p = n) as ->.
  { destruct (_ && _) in Hp; [destruct (Urllib.splitparams _)|]; by inversion Hp. }
  intros Hne. unfold Urllib.split_off_netloc in Hn.
  destruct (String.eqb (PyStr.take 2 rest) "//"); [|by inversion Hn].
  unfold Urllib.splitnetloc in Hn.
  destruct (Urllib.until_delim (PyStr.drop 2 rest)) as [n0 r0] eqn:Hu.
  destruct (_ || _) eqn:H1 in Hn; [done|].
  destruct (_ && _) eqn:H2 in Hn; [done|].
  injection Hn as -> ->. apply until_delim_facts in Hu as [Hd Hus].
  repeat split; [done|by apply Hus, no_unsafe_drop| |done].
  unfold brackets_ok. cbv zeta. by rewrite H1, H2.
Qed.

End round_trip.

(** ** The cases of [urljoin] *)
Section urljoin_cases.
Context `{PyLib}.

Lemma relative_uses_netloc (sch : string) :
  sch ∈ Urllib.uses_relative → bool_decide (sch ∈ Urllib.uses_netloc) = true.
Proof.
  unfold Urllib.uses_relative. intros Hin.
  repeat (apply elem_of_cons in Hin as [->|Hin]);
    try (by apply elem_of_nil in Hin); by vm_compute.
Qed.

Lemma urlunparse_parse_back (parts : Urllib.ParseResult) :
  Urllib.scheme parts ∈ Urllib.uses_relative → Urllib.netloc parts ≠ "" →
  no_delim (Urllib.netloc parts) = true → no_unsafe (Urllib.netloc parts) = true →
  brackets_ok (Urllib.netloc parts) = true →
  netloc_check (Urllib.netloc parts) = true →
  ∃ p, Urllib.urlparse (Urllib.urlunparse parts) = Ok p
       ∧ Urllib.scheme p = Urllib.scheme parts
       ∧ Urllib.netloc p = Urllib.netloc parts.
Proof. intros. unfold Urllib.urlunparse. by apply urlunsplit_parse_back. Qed.

Lemma urljoin_other_scheme (base url : string) (b u : Urllib.ParseResult) :
  base ≠ "" → url ≠ "" →
  Urllib.urlparse base = Ok b → Urllib.urlparse_with url (Urllib.scheme b) = Ok u →
  Urllib.scheme u ≠ Urllib.scheme b ∨ Urllib.scheme u ∉ Urllib.uses_relative →
  Urllib.urljoin base url = Ok url.
Proof.
  intros Hb%String.eqb_neq Hu%String.eqb_neq Hpb Hpu Hs.
  unfold Urllib.urljoin. unfold Urllib.urlparse in Hpb.
  rewrite Hb, Hu, Hpb. simpl. rewrite Hpu. simpl.
  destruct Hs as [Hs|Hs].
  - apply String.eqb_neq in Hs. by rewrite Hs.
  - rewrite (bool_decide_eq_false_2 _ Hs). by rewrite orb_true_r.
Qed.

Lemma urljoin_own_netloc (base url : string) (b u : Urllib.ParseResult) :
  base ≠ "" → url ≠ "" →
  Urllib.urlparse base = Ok b → Urllib.urlparse_with url (Urllib.scheme b) = Ok u →
  Urllib.scheme u = Urllib.scheme b → Urllib.scheme u ∈ Urllib.uses_relative →
  Urllib.netloc u ≠ "" →
  Urllib.urljoin base url = Ok (Urllib.urlunparse u)
  ∧ ∃ p, Urllib.urlparse (Urllib.urlunparse u) = Ok p
         ∧ Urllib.scheme p = Urllib.scheme b
         ∧ Urllib.netloc p = Urllib.netloc u.
Proof.
  intros Hb%String.eqb_neq Hu%String.eqb_neq Hpb Hpu Hs Hrel Hn. split.
  - unfold Urllib.urljoin. unfold Urllib.urlparse in Hpb.
    rewrite Hb, Hu, Hpb. simpl. rewrite Hpu. simpl.
    rewrite Hs, String.eqb_refl. rewrite <- Hs.
    rewrite (bool_decide_eq_true_2 _ Hrel), (relative_uses_netloc _ Hrel).
    apply String.eqb_neq in Hn. by rewrite Hn.
  - rewrite <- Hs.
    destruct (urlparse_netloc_facts _ _ _ Hpu Hn) as (? & ? & ? & ?).
    by apply urlunparse_parse_back.
Qed.

Lemma urljoin_base_netloc (base url : string) (b u : Urllib.ParseResult) :
  base ≠ "" → url ≠ "" →
  Urllib.urlparse base = Ok b → Urllib.urlparse_with url (Urllib.scheme b) = Ok u →
  Urllib.scheme u = Urllib.scheme b → Urllib.scheme u ∈ Urllib.uses_relative →
  Urllib.netloc u = "" →
  ∃ parts,
    Urllib.urljoin base url = Ok (Urllib.urlunparse parts)
    ∧ Urllib.scheme parts = Urllib.scheme b
    ∧ Urllib.netloc parts = Urllib.netloc b
    ∧ (Urllib.netloc b ≠ "" →
       ∃ p, Urllib.urlparse (Urllib.urlunparse parts) = Ok p
            ∧ Urllib.scheme p = Urllib.scheme b
            ∧ Urllib.netloc p = Urllib.netloc b).
Proof.
  intros Hb%String.eqb_neq Hu%String.eqb_neq Hpb Hpu Hs Hrel Hn.
  assert (∀ parts, Urllib.scheme parts = Urllib.scheme b →
            Urllib.netloc parts = Urllib.netloc b →
            Urllib.netloc b ≠ "" →
            ∃ p, Urllib.urlparse (Urllib.urlunparse parts) = Ok p
                 ∧ Urllib.scheme p = Urllib.scheme b
                 ∧ Urllib.netloc p = Urllib.netloc b) as Hback.
  { intros parts Hps Hpn Hne.
    destruct (urlparse_netloc_facts _ _ _ Hpb Hne) as (? & ? & ? & ?).
    rewrite <- Hps, <- Hpn. apply urlunparse_parse_back; rewrite ?Hps, ?Hpn; try done.
    by rewrite <- Hs. }
  unfold Urllib.urljoin. unfold Urllib.urlparse in Hpb.
  rewrite Hb, Hu, Hpb. simpl. rewrite Hpu. simpl.
  rewrite Hs, String.eqb_refl. rewrite Hs in Hrel.
  rewrite (bool_decide_eq_true_2 _ Hrel), (relative_uses_netloc _ Hrel).
  rewrite Hn. simpl.
  destruct (_ && _); eexists; (split; [reflexivity|]); simpl;
    (split; [done|]); (split; [done|]); intros Hne; by apply Hback.
Qed.

Lemma urljoin_raises_inv (base url : string) (e : exn) :
  Urllib.urljoin base url = Raise e →
  e = ValueError ∧ base ≠ "" ∧ url ≠ ""
  ∧ (Urllib.urlparse base = Raise ValueError
     ∨ ∃ b, Urllib.urlparse base = Ok b
            ∧ Urllib.urlparse_with url (Urllib.scheme b) = Raise ValueError).
Proof.
  unfold Urllib.urljoin, Urllib.urlparse.
  destruct (String.eqb base "") eqn:Hb; [discriminate|].
  destruct (String.eqb url "") eqn:Hu; [discriminate|].
  apply String.eqb_neq in Hb, Hu.
  destruct (Urllib.urlparse_with base "") as [b|e'] eqn:Hpb; simpl.
  - destruct (Urllib.urlparse_with url _) as [u|e''] eqn:Hpu; simpl.
    + repeat (case_match; try discriminate).
    + intros [= <-]. pose proof (urlparse_with_raises _ _ _ Hpu) as ->.
      repeat (split; [done|]). right. by exists b.
  - intros [= <-]. pose proof (urlparse_with_raises _ _ _ Hpb) as ->.
    repeat (split; [done|]). by left.
Qed.

End urljoin_cases.




(** The two cases of the repository's [test_absolute_link], and a link with
    a scheme other than [http], which [urljoin] leaves as it is. *)
Example absolute_link_tests `{PyLib} :
  Utils.absolute_link "http://example.com/path/" "subpage.html"
  = Ok "http://example.com/path/subpage.html"
  ∧ Utils.absolute_link "http://example.com/path/" "http://other.com/page"
    = Ok "http://other.com/page"
  ∧ Utils.absolute_link "http://example.com/path/" "mailto:press@example.com"
    = Ok "mailto:press@example.com".
Proof. repeat split; vm_compute; reflexivity. Qed.

(** The repository's [test_remove_generic_urls]. *)
Example remove_generic_urls_test `{PyLib} :
  Utils.remove_generic_urls
    [Some {[ "url" := VStr "http://example.com/news/" ]};
     Some {[ "url" := VStr "http://example.com/press-release/1" ]};
     Some {[ "url" := VStr "http://example.com/news" ]};
     None;
     Some {[ "title" := VStr "Missing URL" ]}]
  = Ok [Some {[ "url" := VStr "http://example.com/press-release/1" ]}].
Proof. vm_compute. reflexivity. Qed.

(** * Further properties of the code *)

(** ** More on [Utils.remove_generic_urls] *)
Section filter_more.
Context `{PyLib}.

Lemma filter_m_app {A} (p : A → result bool) (l1 l2 : list A) :
  filter_m p (l1 ++ l2)
  = a ← filter_m p l1; b ← filter_m p l2; Ok (a ++ b).
Proof.
  induction l1 as [|x l1 IH]; simpl.
  - by destruct (filter_m p l2).
  - destruct (p x) as [c|e]; simpl; [|done]. rewrite IH.
    destruct (filter_m p l1) as [a|e]; simpl; [|done].
    destruct (filter_m p l2) as [b|e]; simpl; [|done]. by destruct c.
Qed.

Lemma filter_m_cons_raise {A} (p : A → result bool) (x : A) (l : list A)
    (e : exn) :
  p x = Raise e → filter_m p (x :: l) = Raise e.
Proof. intros Hp. simpl. by rewrite Hp. Qed.

Lemma keeps_true_has_url (r : pyobj) :
  keeps r = true → ∃ d v, r = Some d ∧ d !! "url" = Some v.
Proof.
  rewrite keeps_has_url. intros [Hu _]%andb_true_iff. by apply has_url_Some.
Qed.

End filter_more.

(** X1.  What [remove_generic_urls] returns holds no [None] and no record
    without a [url] key, and is no longer than its input. *)
Theorem remove_generic_urls_result `{PyLib} (results kept : list pyobj) :
  Utils.remove_generic_urls results = Ok kept →
  Forall (λ r, ∃ d v, r = Some d ∧ d !! "url" = Some v) kept
  ∧ (length kept ≤ length results)%nat.
Proof.
  intros ->%remove_generic_urls_Ok. split.
  - apply Forall_forall. intros r [Hr _]%list_elem_of_filter.
    by apply keeps_true_has_url, Is_true_true.
  - apply length_filter.
Qed.

Lemma remove_generic_urls_result_witness :
  @Utils.remove_generic_urls RefLib.lib [news_index; release_9; None]
  = Ok [release_9]
  ∧ (length [release_9] ≤ length [news_index; release_9; None])%nat.
Proof.
  assert (@Utils.remove_generic_urls RefLib.lib [news_index; release_9; None]
          = Ok [release_9]) as Hrun by (vm_compute; reflexivity).
  split; [exact Hrun|].
  exact (proj2 (@remove_generic_urls_result RefLib.lib _ _ Hrun)).
Defined.

(** X2.  Filtering a concatenation is filtering its parts, left part first:
    also when one of them raises, the filter of the whole raises what the
    first failing part raises. *)
Theorem remove_generic_urls_app `{PyLib} (l1 l2 : list pyobj) :
  Utils.remove_generic_urls (l1 ++ l2)
  = a ← Utils.remove_generic_urls l1;
    b ← Utils.remove_generic_urls l2;
    Ok (a ++ b).
Proof.
  rewrite !remove_generic_urls_eq, filter_app. apply filter_m_app.
Qed.

(** X3.  The values a [url] key may hold: a record whose url is [None] is
    kept, and a record whose url is a date makes the whole call raise
    [AttributeError], once the records before it have passed. *)
Theorem remove_generic_urls_url_values `{PyLib} :
  (∀ d : pydict, d !! "url" = Some VNone →
     Utils.remove_generic_urls [Some d] = Ok [Some d])
  ∧ (∀ (before after : list pyobj) (d : pydict) (x : date),
       Forall url_parses before →
       d !! "url" = Some (VDate x) →
       Utils.remove_generic_urls (before ++ Some d :: after)
       = Raise AttributeError).
Proof.
  split.
  - intros d Hd. apply remove_generic_urls_fixed. constructor; [|constructor].
    unfold keeps. by rewrite Hd.
  - intros before after d x Hbefore Hd.
    assert (Utils.remove_generic_urls (Some d :: after) = Raise AttributeError)
      as Hraise.
    { rewrite remove_generic_urls_eq, filter_bool_cons.
      assert (has_url (Some d) = true) as -> by (apply has_url_Some; eauto).
      apply filter_m_cons_raise. unfold url_test, getitem. by rewrite Hd. }
    rewrite remove_generic_urls_app, (remove_generic_urls_returns _ Hbefore).
    by rewrite Hraise.
Qed.

Lemma remove_generic_urls_url_values_witness :
  @Utils.remove_generic_urls RefLib.lib
    ([release_9] ++ Some {[ "url" := VDate (Date 2024 1 1) ]} :: [news_index])
  = Raise AttributeError.
Proof.
  apply (proj2 (@remove_generic_urls_url_values RefLib.lib)
           [release_9] [news_index] _ (Date 2024 1 1)).
  - constructor; [|constructor].
    apply (url_parses_singleton _ true). vm_compute. reflexivity.
  - apply lookup_singleton_eq.
Defined.

(** ** More on [Utils.absolute_link] *)

(** X4.  With an empty base [absolute_link] returns the link, and for an
    empty link it returns the base. *)
Theorem absolute_link_empty `{PyLib} (s : string) :
  Utils.absolute_link "" s = Ok s ∧ Utils.absolute_link s "" = Ok s.
Proof.
  unfold Utils.absolute_link, Urllib.urljoin. split.
  - by destruct (PyStr.startswith s "http").
  - simpl. destruct (String.eqb s "") eqn:Hs; [|done].
    by apply String.eqb_eq in Hs as ->.
Qed.

(** X5.  Called with the value of [tag.get('href')], [absolute_link]
    raises [AttributeError] when that value is [None]; for a string it
    raises nothing but [ValueError], and only when the link does not begin
    with [http] and [urljoin] raises it. *)
Theorem absolute_link_raises `{PyLib} (url : string) (link : option string)
    (e : exn) :
  (link = None → absolute_link_of url link = Raise AttributeError)
  ∧ (absolute_link_of url link = Raise e →
     (link = None ∧ e = AttributeError)
     ∨ (∃ l, link = Some l ∧ e = ValueError
             ∧ PyStr.startswith l "http" = false
             ∧ Urllib.urljoin url l = Raise ValueError)).
Proof.
  split; [by intros ->|]. destruct link as [l|]; simpl.
  - intros He. right. exists l. unfold Utils.absolute_link in He.
    destruct (PyStr.startswith l "http"); [discriminate|].
    pose proof (urljoin_raises _ _ _ He) as ->. done.
  - intros [= <-]. by left.
Qed.

Lemma absolute_link_raises_witness :
  @absolute_link_of RefLib.lib "http://[x.gov/news/" None
  = Raise AttributeError
  ∧ ((None : option string) = None ∧ AttributeError = AttributeError
     ∨ ∃ l, None = Some l ∧ AttributeError = ValueError
            ∧ PyStr.startswith l "http" = false
            ∧ @Urllib.urljoin RefLib.lib "http://[x.gov/news/" l
              = Raise ValueError)
  ∧ ((Some "release.html" = None ∧ ValueError = AttributeError)
     ∨ ∃ l, Some "release.html" = Some l ∧ ValueError = ValueError
            ∧ PyStr.startswith l "http" = false
            ∧ @Urllib.urljoin RefLib.lib "http://[x.gov/news/" l
              = Raise ValueError).
Proof.
  destruct (@absolute_link_raises RefLib.lib "http://[x.gov/news/" None
              AttributeError) as [Hnone Hinv].
  split; [exact (Hnone eq_refl)|]. split; [exact (Hinv (Hnone eq_refl))|].
  apply (@absolute_link_raises RefLib.lib "http://[x.gov/news/"
           (Some "release.html") ValueError).
  vm_compute. reflexivity.
Defined.

(** ** More on [Feed.parse_rss], [Feed.parse_atom] and [Feed.batch] *)
Section feed_more.
Context `{PyLib}.

Lemma rss_item_inv (url : string) (item : node) (r : pyobj) :
  Feed.rss_item url item = Ok (Some r) →
  ∃ link abs_link d u,
    find "link" item = Some link
    ∧ Utils.absolute_link url (text link) = Ok abs_link
    ∧ Feed.date_from_rss_item item = Ok d
    ∧ Urllib.urlparse url = Ok u
    ∧ r = record (VStr url)
            (VStr (if String.eqb url Feed.burr_feed
                   then "http://www.burr.senate.gov/public/" +:+ text link
                   else if String.eqb url Feed.johanns_feed
                        then PyStr.drop 37 (text link)
                        else abs_link))
            (VStr (text_or_empty "title" item)) (of_date d)
            (VStr (Urllib.netloc u)).
Proof.
  unfold Feed.rss_item. destruct (find "link" item) as [link|]; [|done].
  intros (a & Ha & Ho)%bind_Ok. apply bind_Ok in Ho as (d & Hd & Ho).
  apply bind_Ok in Ho as (u & Hu & Ho). exists link, a, d, u.
  repeat split; try done. by inversion Ho.
Qed.

Lemma atom_entry_inv (url : string) (entry : node) (r : pyobj) :
  Feed.atom_entry url entry = Ok (Some r) →
  ∃ link u,
    find "link" entry = Some link
    ∧ Urllib.urlparse url = Ok u
    ∧ r = record (VStr url) (of_str (get "href" link))
            (VStr (text_or_empty "title" entry))
            (of_date
               (match find "published" entry with
                | Some p => strptime (text p) Feed.atom_format
                | None =>
                    match find "updated" entry with
                    | Some p => strptime (text p) Feed.atom_format
                    | None => None
                    end
                end))
            (VStr (Urllib.netloc u)).
Proof.
  unfold Feed.atom_entry. destruct (find "link" entry) as [link|]; [|done].
  intros (d & Hd & Ho)%bind_Ok. apply bind_Ok in Ho as (u & Hu & Ho).
  exists link, u. repeat split; try done. inversion Ho. do 2 f_equal.
  destruct (find "published" entry) as [p|].
  - destruct (strptime (text p) Feed.atom_format); by inversion Hd.
  - destruct (find "updated" entry) as [p|]; [|by inversion Hd].
    destruct (strptime (text p) Feed.atom_format); by inversion Hd.
Qed.

Lemma parse_rss_inv (doc : node) (url : string) (rs : list pyobj) :
  Feed.parse_rss doc url = Ok rs →
  ∃ extracted,
    Forall2 (λ item r, Feed.rss_item url item = Ok (Some r))
      (filter (λ item, has_link item) (find_all "item" doc)) extracted
    ∧ rs = filter (λ r, keeps r) extracted.
Proof.
  rewrite parse_rss_eq. intros (extracted & Hex & Hrs)%bind_Ok.
  exists extracted. split.
  - apply (for_each_Forall2 _ has_link) in Hex; [done|apply rss_item_link].
  - by apply remove_generic_urls_Ok.
Qed.

Lemma parse_rss_elem (doc : node) (url : string) (rs : list pyobj) (r : pyobj) :
  Feed.parse_rss doc url = Ok rs → r ∈ rs →
  keeps r = true
  ∧ ∃ item, item ∈ find_all "item" doc ∧ Feed.rss_item url item = Ok (Some r).
Proof.
  intros (extracted & Hex & ->)%parse_rss_inv [Hk Hr]%list_elem_of_filter.
  split; [by apply Is_true_true|].
  destruct (Forall2_elem_of_r _ _ _ _ Hex Hr) as (item & Hitem & Hbody).
  apply list_elem_of_filter in Hitem as [_ Hitem]. eauto.
Qed.

Lemma batch_eq (open_rss : string → option node) (urls : list string) :
  Feed.batch open_rss urls
  = (urls ≫= (λ u, records_of (Feed.from_rss open_rss u)),
     filter (λ u, unusable open_rss u) urls).
Proof. unfold Feed.batch. by rewrite batch_loop_eq. Qed.

End feed_more.

(** X6.  No record that [Feed.parse_rss] returns has a generic index path
    or lacks a url, and it returns no more records than the document has
    items with a [link] element. *)
Theorem parse_rss_filtered `{PyLib} (doc : node) (url : string)
    (rs : list pyobj) :
  Feed.parse_rss doc url = Ok rs →
  Forall (λ r, keeps r = true) rs
  ∧ (length rs
       ≤ length (filter (λ item, has_link item) (find_all "item" doc)))%nat.
Proof.
  intros (extracted & Hex & ->)%parse_rss_inv. split.
  - apply Forall_forall. intros r [Hr _]%list_elem_of_filter.
    by apply Is_true_true.
  - rewrite (Forall2_length _ _ _ Hex). apply length_filter.
Qed.

Lemma parse_rss_filtered_witness :
  @Feed.parse_rss RefLib.lib rss_scenario "http://x.gov/rss"
  = Ok [rss_scenario_record]
  ∧ Forall (λ r, @keeps RefLib.lib r = true) [rss_scenario_record].
Proof.
  assert (@Feed.parse_rss RefLib.lib rss_scenario "http://x.gov/rss"
          = Ok [rss_scenario_record])
    as Hrun by (vm_compute; reflexivity).
  split; [exact Hrun|].
  exact (proj1 (@parse_rss_filtered RefLib.lib _ _ _ Hrun)).
Defined.

(** X7.  Every record that [Feed.parse_rss] returns comes from an item of
    the document: its source is the feed URL, its domain the netloc of the
    feed URL (whatever host the item links to), its title the text of the
    item's [title] and its date what [date_from_rss_item] finds for the
    item. *)
Theorem parse_rss_record_fields `{PyLib} (doc : node) (url : string)
    (rs : list pyobj) (r : pyobj) :
  Feed.parse_rss doc url = Ok rs → r ∈ rs →
  ∃ item d u,
    item ∈ find_all "item" doc
    ∧ Feed.date_from_rss_item item = Ok d
    ∧ Urllib.urlparse url = Ok u
    ∧ getitem r "source" = Ok (VStr url)
    ∧ getitem r "title" = Ok (VStr (text_or_empty "title" item))
    ∧ getitem r "date" = Ok (of_date d)
    ∧ getitem r "domain" = Ok (VStr (Urllib.netloc u)).
Proof.
  intros Hrs Hr. destruct (parse_rss_elem _ _ _ _ Hrs Hr) as (_ & item & Hitem & Hbody).
  apply rss_item_inv in Hbody as (link & a & d & u & _ & _ & Hd & Hu & ->).
  exists item, d, u. repeat split; try done; apply getitem_record.
Qed.

Lemma parse_rss_record_fields_witness :
  ∃ item d u,
    item ∈ find_all "item" rss_scenario
    ∧ @Feed.date_from_rss_item RefLib.lib item = Ok d
    ∧ @Urllib.urlparse RefLib.lib "http://x.gov/rss" = Ok u
    ∧ getitem rss_scenario_record "source" = Ok (VStr "http://x.gov/rss")
    ∧ getitem rss_scenario_record "title" = Ok (VStr (text_or_empty "title" item))
    ∧ getitem rss_scenario_record "date" = Ok (of_date d)
    ∧ getitem rss_scenario_record "domain" = Ok (VStr (Urllib.netloc u)).
Proof.
  apply (@parse_rss_record_fields RefLib.lib rss_scenario "http://x.gov/rss"
           [rss_scenario_record]).
  - vm_compute. reflexivity.
  - apply list_elem_of_here.
Defined.

(** X8.  The url of a record of [Feed.parse_rss] is made from the text of
    the item's [link]: for the Burr feed it is that text after
    [http://www.burr.senate.gov/public/], for the Johanns feed that text
    without its first 37 characters, and for every other feed what
    [absolute_link] makes of it. *)
Theorem parse_rss_record_url `{PyLib} (doc : node) (url : string)
    (rs : list pyobj) (r : pyobj) :
  Feed.parse_rss doc url = Ok rs → r ∈ rs →
  ∃ item link s,
    item ∈ find_all "item" doc
    ∧ find "link" item = Some link
    ∧ getitem r "url" = Ok (VStr s)
    ∧ (url = Feed.burr_feed →
       s = "http://www.burr.senate.gov/public/" +:+ text link)
    ∧ (url = Feed.johanns_feed → s = PyStr.drop 37 (text link))
    ∧ (url ≠ Feed.burr_feed → url ≠ Feed.johanns_feed →
       Utils.absolute_link url (text link) = Ok s).
Proof.
  intros Hrs Hr. destruct (parse_rss_elem _ _ _ _ Hrs Hr) as (_ & item & Hitem & Hbody).
  apply rss_item_inv in Hbody as (link & a & d & u & Hl & Ha & _ & _ & ->).
  exists item, link. eexists. split; [done|]. split; [done|].
  split; [apply getitem_record|]. split; [|split].
  - intros ->. reflexivity.
  - intros ->. reflexivity.
  - intros Hb%String.eqb_neq Hj%String.eqb_neq. by rewrite Hb, Hj.
Qed.

Lemma parse_rss_record_url_witness :
  ∃ item link s,
    item ∈ find_all "item" rss_scenario
    ∧ find "link" item = Some link
    ∧ getitem rss_scenario_record "url" = Ok (VStr s)
    ∧ ("http://x.gov/rss" = Feed.burr_feed →
       s = "http://www.burr.senate.gov/public/" +:+ text link)
    ∧ ("http://x.gov/rss" = Feed.johanns_feed → s = PyStr.drop 37 (text link))
    ∧ ("http://x.gov/rss" ≠ Feed.burr_feed →
       "http://x.gov/rss" ≠ Feed.johanns_feed →
       @Utils.absolute_link RefLib.lib "http://x.gov/rss" (text link) = Ok s).
Proof.
  apply (@parse_rss_record_url RefLib.lib rss_scenario "http://x.gov/rss"
           [rss_scenario_record]).
  - vm_compute. reflexivity.
  - apply list_elem_of_here.
Defined.

(** X9.  [Feed.parse_atom] returns one record for each entry that has a
    [link] element, in the order of the entries and without dropping any:
    its url is the [href] of that link ([None] when the link has none), its
    date that of [published], or of [updated] when there is no
    [published]. *)
Theorem parse_atom_records `{PyLib} (doc : node) (url : string)
    (rs : list pyobj) :
  Feed.parse_atom doc url = Ok rs →
  length rs = length (filter (λ e, has_link e) (find_all "entry" doc))
  ∧ Forall2
      (λ entry r, ∃ link u,
         find "link" entry = Some link
         ∧ Urllib.urlparse url = Ok u
         ∧ r = record (VStr url) (of_str (get "href" link))
                 (VStr (text_or_empty "title" entry))
                 (of_date
                    (match find "published" entry with
                     | Some p => strptime (text p) Feed.atom_format
                     | None =>
                         match find "updated" entry with
                         | Some p => strptime (text p) Feed.atom_format
                         | None => None
                         end
                     end))
                 (VStr (Urllib.netloc u)))
      (filter (λ e, has_link e) (find_all "entry" doc)) rs.
Proof.
  rewrite parse_atom_eq. intros Hrs.
  apply (for_each_Forall2 _ has_link) in Hrs; [|apply atom_entry_link].
  split; [symmetry; by eapply Forall2_length|].
  eapply Forall2_impl; [exact Hrs|]. intros entry r. apply atom_entry_inv.
Qed.

Lemma parse_atom_records_witness :
  length [atom_news_record]
  = length (filter (λ e, has_link e) (find_all "entry" atom_news)).
Proof.
  apply (@parse_atom_records RefLib.lib atom_news "http://x.gov/atom").
  vm_compute. reflexivity.
Defined.

(** X10.  [Feed.batch] on a concatenation of URL lists is the concatenation
    of its results on the parts, successes with successes and failures with
    failures. *)
Theorem batch_app `{PyLib} (open_rss : string → option node)
    (urls1 urls2 : list string) :
  Feed.batch open_rss (urls1 ++ urls2)
  = ((Feed.batch open_rss urls1).1 ++ (Feed.batch open_rss urls2).1,
     (Feed.batch open_rss urls1).2 ++ (Feed.batch open_rss urls2).2).
Proof. rewrite !batch_eq. simpl. by rewrite bind_app, filter_app. Qed.

(** X11.  [Feed.batch] accounts for every URL: a URL that is not among the
    failures returned at least one record and all its records are among the
    successes; and there are no more failures than URLs. *)
Theorem batch_accounts `{PyLib} (open_rss : string → option node)
    (urls : list string) :
  (length (Feed.batch open_rss urls).2 ≤ length urls)%nat
  ∧ ∀ u, u ∈ urls → u ∉ (Feed.batch open_rss urls).2 →
      ∃ r rs, Feed.from_rss open_rss u = Ok (r :: rs)
              ∧ ∀ x, x ∈ r :: rs → x ∈ (Feed.batch open_rss urls).1.
Proof.
  rewrite batch_eq. simpl. split; [apply length_filter|].
  intros u Hu Hnot.
  assert (unusable open_rss u = false) as Hus.
  { destruct (unusable open_rss u) eqn:Hus; [|done]. destruct Hnot.
    apply list_elem_of_filter. split; [by apply Is_true_true|done]. }
  unfold unusable in Hus.
  destruct (Feed.from_rss open_rss u) as [[|r rs]|e] eqn:Hrs; try done.
  exists r, rs. split; [done|]. intros x Hx.
  apply list_elem_of_bind. exists u. split; [|done]. by rewrite Hrs.
Qed.

Lemma batch_accounts_witness :
  ∃ r rs, @Feed.from_rss RefLib.lib three_feeds "http://x.gov/rss" = Ok (r :: rs)
    ∧ ∀ x, x ∈ r :: rs →
        x ∈ (@Feed.batch RefLib.lib three_feeds
               ["http://x.gov/rss"; "http://y.gov/rss"; "http://z.gov/rss"]).1.
Proof.
  apply (proj2 (@batch_accounts RefLib.lib three_feeds
                  ["http://x.gov/rss"; "http://y.gov/rss"; "http://z.gov/rss"])).
  - apply list_elem_of_here.
  - vm_compute. intros Hin.
    apply elem_of_cons in Hin as [Hin|Hin]; [discriminate Hin|].
    apply elem_of_cons in Hin as [Hin|Hin]; [discriminate Hin|].
    by apply elem_of_nil in Hin.
Defined.

(** ** More on the loop [for_each] *)
Lemma for_each_returns {A} (body : A → result (option pyobj)) (xs : list A) :
  (∃ rs, for_each body xs [] = Ok rs) ↔ Forall (λ x, ∃ o, body x = Ok o) xs.
Proof.
  induction xs as [|x xs IH]; simpl.
  - split; [constructor|eauto].
  - split.
    + intros [rs (o & Ho & Hrs)%bind_Ok]. constructor; [eauto|]. apply IH.
      destruct o as [r|]; [|eauto].
      rewrite for_each_acc in Hrs.
      destruct (for_each body xs []) as [rs'|e]; [eauto|done].
    + intros Hall. apply Forall_cons in Hall as [[o Ho] Hall].
      apply IH in Hall as [rs Hrs]. rewrite Ho. simpl.
      destruct o as [r|]; [|eauto].
      rewrite for_each_acc, Hrs. simpl. eauto.
Qed.

Lemma for_each_raises {A} (body : A → result (option pyobj)) (xs : list A)
    (e : exn) :
  for_each body xs [] = Raise e → ∃ x, x ∈ xs ∧ body x = Raise e.
Proof.
  induction xs as [|x xs IH]; simpl; [done|].
  destruct (body x) as [o|e'] eqn:Hx; simpl.
  - intros Hrs.
    assert (for_each body xs [] = Raise e) as Hrest.
    { destruct o as [r|]; [|done]. rewrite for_each_acc in Hrs.
      by destruct (for_each body xs []). }
    destruct (IH Hrest) as (x' & Hin & Hx'). exists x'.
    split; [by apply list_elem_of_further|done].
  - intros [= ->]. exists x. split; [apply list_elem_of_here|done].
Qed.

(** ** Urls with a fixed origin *)
Lemma startswith_app (p x : string) : PyStr.startswith (p +:+ x) p = true.
Proof.
  unfold PyStr.startswith. induction p as [|a p IH]; [by destruct x|].
  change (String a p +:+ x) with (String a (p +:+ x)). simpl.
  by destruct (ascii_dec a a).
Qed.

Section fixed_origin.
Context `{PyLib}.

Lemma urlparse_of_parts (url sch rest host rest' : string) :
  Urllib.split_off_scheme
    (Urllib.unsafe_removed (PyStr.lstrip Urllib.c0_control_or_space url)) ""
  = (sch, rest) →
  Urllib.split_off_netloc rest = Ok (host, rest') →
  Urllib.isascii host = true →
  ∃ p, Urllib.urlparse url = Ok p
       ∧ Urllib.scheme p = sch ∧ Urllib.netloc p = host.
Proof.
  intros Hs Hn Ha. unfold Urllib.urlparse, Urllib.urlparse_with, Urllib.urlsplit.
  change (Urllib.unsafe_removed
            (PyStr.rstrip Urllib.c0_control_or_space
               (PyStr.lstrip Urllib.c0_control_or_space ""))) with "".
  rewrite Hs, Hn. simpl.
  destruct (PyStr.partition "#" rest') as [[b1 f1] a1].
  destruct (PyStr.partition "?" b1) as [[b2 f2] a2].
  rewrite Ha, orb_true_r. simpl.
  destruct (_ && _); [destruct (Urllib.splitparams _)|]; eauto.
Qed.

Lemma bera_origin (tail : string) :
  ∃ p, Urllib.urlparse ("https://bera.house.gov/news/" +:+ tail) = Ok p
       ∧ Urllib.scheme p = "https" ∧ Urllib.netloc p = "bera.house.gov".
Proof.
  apply (urlparse_of_parts _ "https"
           ("//bera.house.gov/news/" +:+ Urllib.unsafe_removed tail)
           "bera.house.gov" ("/news/" +:+ Urllib.unsafe_removed tail));
    reflexivity.
Qed.

Lemma meeks_origin (tail : string) :
  ∃ p, Urllib.urlparse ("https://meeks.house.gov" +:+ "/" +:+ tail) = Ok p
       ∧ Urllib.scheme p = "https" ∧ Urllib.netloc p = "meeks.house.gov".
Proof.
  apply (urlparse_of_parts _ "https"
           ("//meeks.house.gov/" +:+ Urllib.unsafe_removed tail)
           "meeks.house.gov" ("/" +:+ Urllib.unsafe_removed tail));
    reflexivity.
Qed.

Lemma bera_loop_omap (url : string) (rows : list node) (results : list pyobj) :
  Scraper.bera_loop url rows results
  = results ++ omap (Scraper.bera_row url) rows.
Proof.
  revert results. induction rows as [|row rows IH]; intros results; csimpl.
  - by rewrite app_nil_r.
  - destruct (Scraper.bera_row url row) as [r|]; rewrite IH; [|done].
    by rewrite <- app_assoc.
Qed.

End fixed_origin.

(** X12.  Every record of [Scraper.bera] has an absolute url: it begins
    with [https://bera.house.gov/news/], so that [urlparse] gives it the
    scheme [https] and the authority [bera.house.gov], which is also the
    record's domain; and [bera] returns no more records than the page has
    [article] elements. *)
Theorem bera_records `{PyLib} (open_html : string → option node) (page : Z) :
  (∀ r, r ∈ Scraper.bera open_html page →
     ∃ s p,
       getitem r "url" = Ok (VStr s)
       ∧ PyStr.startswith s "https://bera.house.gov/news/" = true
       ∧ Urllib.urlparse s = Ok p
       ∧ Urllib.scheme p = "https"
       ∧ Urllib.netloc p = "bera.house.gov"
       ∧ getitem r "domain" = Ok (VStr "bera.house.gov")
       ∧ getitem r "source" = Ok (VStr (Scraper.bera_url page)))
  ∧ (length (Scraper.bera open_html page)
       ≤ match open_html (Scraper.bera_url page) with
         | Some doc => length (find_all "article" doc)
         | None => 0
         end)%nat.
Proof.
  unfold Scraper.bera.
  destruct (open_html (Scraper.bera_url page)) as [doc|]; simpl.
  - rewrite bera_loop_omap. simpl. split; [|apply length_omap_le].
    intros r (row & _ & Hr)%list_elem_of_omap. unfold Scraper.bera_row in Hr.
    destruct (find "a" row) as [link|]; [|done].
    destruct (find "time" row) as [t|]; [|done]. injection Hr as <-.
    destruct (bera_origin (fstr (get "href" link))) as (p & Hp & Hs & Hn).
    exists ("https://bera.house.gov/news/" +:+ fstr (get "href" link)), p.
    repeat split; first [done | apply getitem_record | apply startswith_app].
  - split; [|done]. intros r Hr. by apply elem_of_nil in Hr.
Qed.

Lemma bera_records_witness :
  ∃ s p,
    getitem
      (record
         (VStr "https://bera.house.gov/news/documentquery.aspx?DocumentTypeID=2402&Page=1")
         (VStr "https://bera.house.gov/news/documentsingle.aspx?DocumentID=1")
         (VStr "First") (VDate (Date 2024 1 1)) (VStr "bera.house.gov")) "url"
    = Ok (VStr s)
    ∧ PyStr.startswith s "https://bera.house.gov/news/" = true
    ∧ @Urllib.urlparse RefLib.lib s = Ok p
    ∧ Urllib.scheme p = "https"
    ∧ Urllib.netloc p = "bera.house.gov"
    ∧ getitem
        (record
           (VStr "https://bera.house.gov/news/documentquery.aspx?DocumentTypeID=2402&Page=1")
           (VStr "https://bera.house.gov/news/documentsingle.aspx?DocumentID=1")
           (VStr "First") (VDate (Date 2024 1 1)) (VStr "bera.house.gov")) "domain"
      = Ok (VStr "bera.house.gov")
    ∧ getitem
        (record
           (VStr "https://bera.house.gov/news/documentquery.aspx?DocumentTypeID=2402&Page=1")
           (VStr "https://bera.house.gov/news/documentsingle.aspx?DocumentID=1")
           (VStr "First") (VDate (Date 2024 1 1)) (VStr "bera.house.gov")) "source"
      = Ok (VStr (Scraper.bera_url 1)).
Proof.
  apply (proj1 (@bera_records RefLib.lib (λ _, Some bera_page) 1)).
  vm_compute. apply list_elem_of_here.
Defined.

(** An anchor without [href] yields the url [.../news/None]. *)
Example bera_without_href :
  getitem <$> last (@Scraper.bera RefLib.lib (λ _, Some bera_page) 1)
  = Some (λ k, getitem
            (record (VStr (Scraper.bera_url 1))
               (VStr "https://bera.house.gov/news/None") (VStr "Second")
               (VDate (Date 2024 1 2)) (VStr "bera.house.gov")) k).
Proof. vm_compute. reflexivity. Qed.



(** ** [Scraper.castor] *)
Section castor.
Context `{PyLib}.

Lemma castor_row_returns (url : string) (row : node) :
  (∃ o, Scraper.castor_row url row = Ok o)
  ↔ ∀ link t, find "a" row = Some link → find "time" row = Some t →
      is_Some (get "href" link).
Proof.
  unfold Scraper.castor_row.
  destruct (find "a" row) as [link|]; [|split; [done|eauto]].
  destruct (find "time" row) as [t|]; [|split; [done|eauto]].
  destruct (get "href" link) as [h|] eqn:Hh; simpl.
  - split; eauto. intros _ link' t' [= <-] _. rewrite Hh. eauto.
  - split; [by intros [o Ho]|]. intros Hall.
    destruct (Hall link t eq_refl eq_refl) as [h Hh']. congruence.
Qed.

Lemma castor_row_raises (url : string) (row : node) (e : exn) :
  Scraper.castor_row url row = Raise e → e = AttributeError.
Proof.
  unfold Scraper.castor_row.
  destruct (find "a" row) as [link|]; [|done].
  destruct (find "time" row) as [t|]; [|done].
  destruct (get "href" link); simpl; congruence.
Qed.

End castor.

(** X14.  [Scraper.castor] raises nothing but [AttributeError]; on a page
    that was fetched it returns exactly when the first anchor of every
    [article] that has an anchor and a [time] element has an [href]. *)
Theorem castor_returns `{PyLib} (open_html : string → option node) (page : Z) :
  (∀ e, Scraper.castor open_html page = Raise e → e = AttributeError)
  ∧ ∀ doc, open_html (Scraper.castor_url page) = Some doc →
      ((∃ rs, Scraper.castor open_html page = Ok rs)
       ↔ Forall
           (λ row, ∀ link t,
              find "a" row = Some link → find "time" row = Some t →
              is_Some (get "href" link))
           (find_all "article" doc)).
Proof.
  unfold Scraper.castor. split.
  - intros e. destruct (open_html (Scraper.castor_url page)) as [doc|]; [|done].
    intros (row & _ & Hrow)%for_each_raises. by apply castor_row_raises in Hrow.
  - intros doc ->. rewrite for_each_returns.
    split; intros Hall; (eapply Forall_impl; [exact Hall|]); intros row;
      apply castor_row_returns.
Qed.

Lemma castor_returns_witness :
  @Scraper.castor RefLib.lib (λ _, Some bera_page) 1 = Raise AttributeError.
Proof.
  assert (∃ e, @Scraper.castor RefLib.lib (λ _, Some bera_page) 1 = Raise e)
    as [e He] by (eexists; vm_compute; reflexivity).
  rewrite He. f_equal.
  exact (proj1 (@castor_returns RefLib.lib (λ _, Some bera_page) 1) e He).
Defined.

(** ** [Scraper.house_gop] *)
Section house_gop.
Context `{PyLib}.

Lemma query_dict_raises (params : list string) (d : gmap string string)
    (param : string) :
  param ∈ params → length (PyStr.split "=" param) ≠ 2%nat →
  ∃ e, Scraper.query_dict params d = Raise e.
Proof.
  intros Hin Hlen. revert d.
  induction params as [|q params IH]; intros d; [by apply elem_of_nil in Hin|].
  apply elem_of_cons in Hin as [<-|Hin]; simpl.
  - destruct (PyStr.split "=" param) as [|k [|v [|w l]]]; simpl in *; eauto.
    done.
  - destruct (PyStr.split "=" q) as [|k [|v [|w l]]]; eauto.
Qed.

Lemma house_gop_link_inv (url : string) (date : option date) (link : node)
    (o : option pyobj) :
  Scraper.house_gop_link url date link = Ok o →
  ∃ href abs_link u,
    get "href" link = Some href
    ∧ Utils.absolute_link url href = Ok abs_link
    ∧ Urllib.urlparse href = Ok u
    ∧ o = Some (record (VStr url) (VStr abs_link)
                  (VStr (PyStr.strip (text link))) (of_date date)
                  (VStr (Urllib.netloc u))).
Proof.
  unfold Scraper.house_gop_link. destruct (get "href" link) as [href|]; [|done].
  intros (a & Ha & Ho)%bind_Ok. apply bind_Ok in Ho as (u & Hu & Ho).
  exists href, a, u. repeat split; try done. by inversion Ho.
Qed.

End house_gop.

(** X15.  The date of a [house_gop] page is lost when the query of its URL
    has a part that is not of the form [key=value]: a part with no [=] or
    with more than one makes the whole [try] block fail, also when a
    [Date] parameter is present. *)
Theorem house_gop_date_malformed `{PyLib} (query param : string) :
  param ∈ PyStr.split "&" query →
  length (PyStr.split "=" param) ≠ 2%nat →
  Scraper.house_gop_date query = None.
Proof.
  intros Hin Hlen. unfold Scraper.house_gop_date.
  by destruct (query_dict_raises _ ∅ _ Hin Hlen) as [e ->].
Qed.

Lemma house_gop_date_malformed_witness :
  @Scraper.house_gop_date RefLib.lib "Date=01/15/2014&all" = None.
Proof.
  apply (@house_gop_date_malformed RefLib.lib _ "all").
  - vm_compute. apply list_elem_of_further, list_elem_of_here.
  - vm_compute. discriminate.
Defined.

(** The date of a well-formed query, and of a query without [Date]. *)
Example house_gop_date_examples :
  @Scraper.house_gop_date RefLib.lib "Date=01/15/2014&offices=all"
  = Some (Date 2014 1 15)
  ∧ @Scraper.house_gop_date RefLib.lib "offices=all" = None
  ∧ @Scraper.house_gop_date RefLib.lib "" = None
  ∧ @Scraper.house_gop_date RefLib.lib "Date=1/5/2014&Date=01/16/2014"
    = Some (Date 2014 1 16).
Proof. vm_compute. done. Qed.



(** X17.  When [Scraper.house_gop] returns for a page that has the member
    news list, every anchor of the list has an [href]: an anchor without
    one makes the call raise. *)
Theorem house_gop_needs_href `{PyLib} (open_html : string → option node)
    (url : string) (doc member_news : node) (rs : list pyobj) :
  open_html url = Some doc →
  find_attr "ul" "id" "membernews" doc = Some member_news →
  Scraper.house_gop open_html url = Ok rs →
  Forall (λ link, is_Some (get "href" link)) (find_all "a" member_news).
Proof.
  unfold Scraper.house_gop. intros -> Hul (uri & _ & Hrs)%bind_Ok.
  rewrite Hul in Hrs. apply bind_Ok in Hrs as (results & Hres & _).
  assert (∃ rs', for_each (Scraper.house_gop_link url
                             (Scraper.house_gop_date (Urllib.query uri)))
                   (find_all "a" member_news) [] = Ok rs') as Hret by eauto.
  apply for_each_returns in Hret. eapply Forall_impl; [exact Hret|].
  intros link [o (href & _ & _ & -> & _)%house_gop_link_inv]. eauto.
Qed.

Lemma house_gop_needs_href_witness :
  ∃ member_news,
    find_attr "ul" "id" "membernews" house_gop_page = Some member_news
    ∧ Forall (λ link, is_Some (get "href" link)) (find_all "a" member_news).
Proof.
  assert (∃ member_news,
            find_attr "ul" "id" "membernews" house_gop_page = Some member_news)
    as [ul Hul] by (eexists; vm_compute; reflexivity).
  assert (∃ rs, @Scraper.house_gop RefLib.lib (λ _, Some house_gop_page)
                  house_gop_address = Ok rs)
    as [rs Hrs] by (eexists; vm_compute; reflexivity).
  exists ul. split; [exact Hul|].
  exact (@house_gop_needs_href RefLib.lib (λ _, Some house_gop_page)
           house_gop_address house_gop_page ul rs eq_refl Hul Hrs).
Defined.
